(** * Timer session validation and streak reconciliation

    A shallow embedding of the heartbeat endpoint
    ([app/api/mantra/route.ts]: [POST], [completeTimer], [updateStreak]),
    of the service worker's local timer record and completion sync
    ([public/sw.js]) and of the timer page's [startTimer], followed by the
    properties of the specification that are about them.

    Conventions of the embedding.
    - Timestamps are milliseconds since the epoch, as [Date.now()] and
      [new Date(s).getTime()] give them; they are integers well inside the
      range where JavaScript's arithmetic is exact, so they are modelled in
      [Z]. A number that need not be one, the [elapsed] of a request body or
      a member read off an object that does not have it, is a [JsNum]: a
      whole number or [NaN].
    - A calendar date ([toISOString().split('T')[0]], a [DATE] column) is
      modelled by the number of its UTC day: the text [YYYY-MM-DD] and the
      day number determine each other, so [===] on the texts is equality
      of the numbers.
    - The two tables are finite maps on their primary keys.
    - Every read of the clock is a separate reading: the world carries the
      sequence of readings and the number of those already taken. *)

From Stdlib Require Import ZArith Lia.
From stdpp Require Import gmap strings list fin_maps.

Open Scope Z_scope.

(** ** A state monad for the handlers *)

Definition State (St A : Type) : Type := St -> A * St.

Definition ret {St A : Type} (a : A) : State St A := fun s => (a, s).

Definition bind {St A B : Type} (m : State St A) (k : A -> State St B)
  : State St B :=
  fun s => match m s with (a, s') => k a s' end.

Notation "x <- m ;; k" := (bind m (fun x => k))
  (at level 100, m at next level, k at level 200, only parsing).
Notation "m ;; k" := (bind m (fun _ => k))
  (at level 100, k at level 200, only parsing).

(** ** JavaScript numbers and values, as far as the handlers compute with
    them *)

(** What [ToNumber] gives: a whole number, or [NaN]. *)
Inductive JsNum : Type :=
| Num (z : Z)
| NaN.

(** A value read off an object and put into a JSON body. [JSON.stringify]
    leaves an [undefined] member out and writes [NaN] as [null]. *)
Inductive JsValue : Type :=
| undefined
| number (n : JsNum).

#[global] Instance JsNum_eq_dec : EqDecision JsNum.
Proof. solve_decision. Defined.
#[global] Instance JsValue_eq_dec : EqDecision JsValue.
Proof. solve_decision. Defined.

(** [ToNumber] on the values above. *)
Definition to_number (v : JsValue) : JsNum :=
  match v with
  | number n => n
  | undefined => NaN
  end.

(** [a - b], [Math.abs(a)], [a > b] and [a >= b]: arithmetic on [NaN] is
    [NaN], and every comparison with [NaN] is false. *)
Definition js_sub (a b : JsNum) : JsNum :=
  match a, b with
  | Num x, Num y => Num (x - y)
  | _, _ => NaN
  end.

Definition js_abs (a : JsNum) : JsNum :=
  match a with
  | Num x => Num (Z.abs x)
  | NaN => NaN
  end.

Definition js_gt (a b : JsNum) : bool :=
  match a, b with
  | Num x, Num y => y <? x
  | _, _ => false
  end.

Definition js_ge (a b : JsNum) : bool :=
  match a, b with
  | Num x, Num y => y <=? x
  | _, _ => false
  end.

(** [x || 0] on a nullable integer column. *)
Definition or_zero (x : option Z) : Z := default 0 x.

(** The date part of [toISOString()]: the UTC day of a timestamp. *)
Definition utc_date (t : Z) : Z := t / 86400000.

Module Server.

(** *** Rows of [timer_sessions] (keyed by [id]) and [streaks] (keyed by
    [user_id]) *)

Record TimerSession : Type := mkTimerSession {
  user_id : string;
  start_time : Z;
  end_time : option Z;
  duration : Z;                 (* seconds *)
  completed : bool;
  validated : bool;
  suspicious : bool;
  drift_amount : option Z;
  last_heartbeat : option Z;
  heartbeat_count : option Z
}.

Record Streak : Type := mkStreak {
  current_streak : Z;
  longest_streak : Z;
  last_completed : option Z;
  timezone : option string
}.

Record World : Type := mkWorld {
  timer_sessions : gmap string TimerSession;
  streaks : gmap string Streak;
  clock : nat -> Z;             (* the n-th reading of the server clock *)
  reads : nat                   (* readings taken so far *)
}.

(** The body of a heartbeat request. [elapsed] is what the subtraction in
    [POST] makes of the body's member: a number when the member is one (or
    [null], which counts as 0), [NaN] when it is missing or not a number. *)
Record Heartbeat : Type := mkHeartbeat {
  userId : string;
  sessionId : string;
  elapsed : JsNum;
  clientTime : Z
}.

(** The JSON answers of the endpoint. *)
Inductive Response : Type :=
| Unauthorized                                   (* 401 *)
| NoActiveSession                                (* 404 *)
| DriftWarning (serverTime drift : Z)            (* warning *)
| Completed (elapsed_ms : Z)                     (* status: completed *)
| Active (serverTime elapsed_ms remaining : Z)   (* status: active *)
| InternalError.                                 (* 500, the catch *)

#[export] Instance TimerSession_eq_dec : EqDecision TimerSession.
Proof. solve_decision. Defined.
#[export] Instance Streak_eq_dec : EqDecision Streak.
Proof. solve_decision. Defined.
#[export] Instance Response_eq_dec : EqDecision Response.
Proof. solve_decision. Defined.

(** *** The clock and the store *)

(** [Date.now()] / [new Date()]. *)
Definition Date_now : State World Z :=
  fun w => (clock w (reads w),
            mkWorld (timer_sessions w) (streaks w) (clock w) (S (reads w))).

Definition with_sessions (f : gmap string TimerSession -> gmap string TimerSession)
  : State World unit :=
  fun w => (tt, mkWorld (f (timer_sessions w)) (streaks w) (clock w) (reads w)).

Definition with_streaks (f : gmap string Streak -> gmap string Streak)
  : State World unit :=
  fun w => (tt, mkWorld (timer_sessions w) (f (streaks w)) (clock w) (reads w)).

(** [.order('start_time', { ascending: false }).limit(1)]: a row of the
    greatest [start_time]. *)
Fixpoint newest (rows : list (string * TimerSession))
  : option (string * TimerSession) :=
  match rows with
  | [] => None
  | r :: rest =>
      match newest rest with
      | None => Some r
      | Some b => if start_time r.2 <? start_time b.2 then Some b else Some r
      end
  end.

Definition uncompleted_of (uid : string) (r : string * TimerSession) : Prop :=
  user_id r.2 = uid ∧ completed r.2 = false.

#[export] Instance uncompleted_of_dec uid r : Decision (uncompleted_of uid r).
Proof. unfold uncompleted_of. apply _. Defined.

(** [from('timer_sessions').select('*').eq('user_id', userId)
     .eq('completed', false).order(...).limit(1).single()] *)
Definition select_active (uid : string)
  : State World (option (string * TimerSession)) :=
  fun w => (newest (filter (uncompleted_of uid) (map_to_list (timer_sessions w))), w).

(** [from('timer_sessions').update(patch).eq('id', id)] *)
Definition update_session (id : string) (patch : TimerSession -> TimerSession)
  : State World unit :=
  with_sessions (alter patch id).

(** [from('streaks').select('*').eq('user_id', userId).single()] *)
Definition select_streak (uid : string) : State World (option Streak) :=
  fun w => (streaks w !! uid, w).

(** The three patches [POST] and [completeTimer] write. *)
Definition set_drift (d : Z) (r : TimerSession) : TimerSession :=
  mkTimerSession (user_id r) (start_time r) (end_time r) (duration r)
    (completed r) (validated r) true (Some d)
    (last_heartbeat r) (heartbeat_count r).

Definition set_heartbeat (t n : Z) (r : TimerSession) : TimerSession :=
  mkTimerSession (user_id r) (start_time r) (end_time r) (duration r)
    (completed r) (validated r) (suspicious r) (drift_amount r)
    (Some t) (Some n).

Definition set_completed (t : Z) (r : TimerSession) : TimerSession :=
  mkTimerSession (user_id r) (start_time r) (Some t) (duration r)
    true true (suspicious r) (drift_amount r)
    (last_heartbeat r) (heartbeat_count r).

(** *** [updateStreak] *)

Definition updateStreak (uid : string) : State World unit :=
  streak <- select_streak uid ;;
  t1 <- Date_now ;;
  let today := utc_date t1 in
  t2 <- Date_now ;;
  let yesterday := utc_date (t2 - 86400000) in
  match streak with
  | None =>
      (* Create new streak *)
      with_streaks (insert uid (mkStreak 1 1 (Some today) None))
  | Some s =>
      if bool_decide (last_completed s = Some yesterday) then
        (* Continue streak *)
        let newStreak := current_streak s + 1 in
        with_streaks (alter (fun r =>
          mkStreak newStreak (Z.max newStreak (longest_streak s))
                   (Some today) (timezone r)) uid)
      else if negb (bool_decide (last_completed s = Some today)) then
        (* Reset streak *)
        with_streaks (alter (fun r =>
          mkStreak 1 (longest_streak r) (Some today) (timezone r)) uid)
      else ret tt
  end.

(** *** [completeTimer] *)

Definition completeTimer (id uid : string) : State World unit :=
  t <- Date_now ;;
  update_session id (set_completed t) ;;
  updateStreak uid.

(** *** [POST]: the heartbeat endpoint

    [auth] is the user of the request's authenticated session, if any;
    [body] is the parsed JSON body, [None] when [request.json()] throws. *)

Definition POST (auth : option string) (body : option Heartbeat)
  : State World Response :=
  match body with
  | None => ret InternalError
  | Some b =>
      if negb (bool_decide (auth = Some (userId b))) then ret Unauthorized
      else
        sel <- select_active (userId b) ;;
        match sel with
        | None => ret NoActiveSession
        | Some (id, timerSession) =>
            now <- Date_now ;;
            let serverElapsed := now - start_time timerSession in
            let timeDrift := js_abs (js_sub (Num serverElapsed) (elapsed b)) in
            (* what follows the drift check *)
            let validated :=
              t <- Date_now ;;
              update_session id
                (set_heartbeat t (or_zero (heartbeat_count timerSession) + 1)) ;;
              if duration timerSession * 1000 <=? serverElapsed then
                completeTimer id (userId b) ;;
                ret (Completed serverElapsed)
              else
                t' <- Date_now ;;
                ret (Active t' serverElapsed
                       (duration timerSession * 1000 - serverElapsed)) in
            (* [if (timeDrift > 5000)]: false when [timeDrift] is [NaN] *)
            match timeDrift with
            | Num drift =>
                if js_gt (Num drift) (Num 5000) then
                  update_session id (set_drift drift) ;;
                  t <- Date_now ;;
                  ret (DriftWarning t drift)
                else validated
            | NaN => validated
            end
        end
  end.

End Server.

Module Client.

(** *** The timer page ([startTimer]) and the service worker ([sw.js]) *)

(** The [data] of a [START_TIMER] message. *)
Record TimerData : Type := mkTimerData {
  data_duration : Z;
  data_startTime : Z;
  data_serverTime : Z;
  data_userId : string
}.

(** The record kept in the [activeTimers] object store. *)
Record TimerRecord : Type := mkTimerRecord {
  startTime : Z;
  duration : Z;
  serverTime : Z;
  userId : string;
  lastHeartbeat : Z
}.

(** The body posted to [/api/timer/complete]; the first three members are
    read off [state]. *)
Record Completion : Type := mkCompletion {
  c_userId : JsValue;
  c_duration : JsValue;
  c_startTime : JsValue;
  c_endTime : Z
}.

(** What [store.get('current')] returns: an [IDBRequest], with the record
    under the key as its eventual [result]. It is not a promise, so [await]
    hands it on as it is. *)
Record IDBRequest : Type := mkIDBRequest {
  result : option TimerRecord
}.

(** A request is an object: [!state] is false. *)
Definition truthy (state : IDBRequest) : bool := true.

(** [state.startTime], [state.duration], [state.userId] and [state.id]: a
    request has none of these members (they would be members of its
    [result], which the worker does not read), so each is [undefined]. *)
Definition member (state : IDBRequest) (name : string) : JsValue := undefined.

Record Worker : Type := mkWorker {
  activeTimers : gmap string TimerRecord;   (* IndexedDB, keyPath 'id' *)
  clock : nat -> Z;                         (* the device clock *)
  reads : nat;
  online : bool;                            (* does a fetch resolve? *)
  posted : list Completion                  (* bodies given to fetch *)
}.

(** The page's [startTimer]: [duration] minutes are turned into seconds and
    sent with two readings [t1], [t2] of [Date.now()]. *)
Definition startTimer (minutes t1 t2 : Z) : TimerData :=
  let seconds := minutes * 60 in
  mkTimerData seconds t1 t2 "demo-user".

Definition Date_now : State Worker Z :=
  fun w => (clock w (reads w),
            mkWorker (activeTimers w) (clock w) (S (reads w)) (online w) (posted w)).

Definition with_store (f : gmap string TimerRecord -> gmap string TimerRecord)
  : State Worker unit :=
  fun w => (tt, mkWorker (f (activeTimers w)) (clock w) (reads w) (online w) (posted w)).

Definition saveTimerState (timerData : TimerData) : State Worker unit :=
  t <- Date_now ;;
  with_store (insert "current"
    (mkTimerRecord (data_startTime timerData) (data_duration timerData)
                   (data_serverTime timerData) (data_userId timerData) t)).

(** [return store.get('current')] *)
Definition getTimerState : State Worker IDBRequest :=
  fun w => (mkIDBRequest (activeTimers w !! "current"), w).

Definition clearTimerState : State Worker unit :=
  with_store (delete "current").

(** [await fetch('/api/timer/complete', ...)]: the body is handed to the
    network; the promise resolves when the device is online and rejects
    otherwise. *)
Definition fetch_complete (c : Completion) : State Worker bool :=
  fun w => (online w,
            mkWorker (activeTimers w) (clock w) (reads w) (online w) (posted w ++ [c])).

Definition syncTimerCompletion : State Worker unit :=
  state <- getTimerState ;;
  if negb (truthy state) then ret tt
  else
    now <- Date_now ;;
    let elapsed := js_sub (Num now) (to_number (member state "startTime")) in
    if js_ge elapsed (to_number (member state "duration")) then
      t <- Date_now ;;
      resolved <- fetch_complete
        (mkCompletion (member state "userId") (member state "duration")
                      (member state "startTime") t) ;;
      if resolved : bool then clearTimerState   (* Clear timer after successful sync *)
      else ret tt                               (* Will retry on next sync *)
    else ret tt.

End Client.

(** ** Notions the statements use *)

Import Server.

(** The session a heartbeat of user [uid] is validated against. *)
Definition selected (w : World) (uid : string) : option (string * TimerSession) :=
  (select_active uid w).1.

(** What [POST] computes for [serverElapsed] and, for a numeric [elapsed],
    for [timeDrift] in world [w]: the next clock reading minus the row's
    [start_time], and its distance from the client's [elapsed]. *)
Definition serverElapsed (w : World) (ts : TimerSession) : Z :=
  clock w (reads w) - start_time ts.

Definition timeDrift (w : World) (ts : TimerSession) (e : Z) : Z :=
  Z.abs (serverElapsed w ts - e).

(** The outcome of the drift check [timeDrift > 5000] of [POST] in world
    [w]; it is false for an [elapsed] that is not a number. *)
Definition drift_exceeds (w : World) (ts : TimerSession) (e : JsNum) : bool :=
  match e with
  | Num z => 5000 <? timeDrift w ts z
  | NaN => false
  end.

(** Is row [id] marked completed / flagged suspicious in [w]? *)
Definition session_completed (w : World) (id : string) : bool :=
  from_option completed false (timer_sessions w !! id).

Definition session_suspicious (w : World) (id : string) : bool :=
  from_option suspicious false (timer_sessions w !! id).


(** The date [updateStreak] calls [today] when it runs in [w]. *)
Definition today_of (w : World) : Z := utc_date (clock w (reads w)).

(** Modelled from the spec: [calendarDate(endTime, session.timezone)], the
    calendar date of an instant in the user's time zone, which the code does
    not have. The zone is given by its offset from UTC in milliseconds at
    that instant. *)
Definition calendarDate (t offset : Z) : Z := (t + offset) / 86400000.

(** *** Worlds the examples run in *)

Definition fresh_session (uid : string) (start dur : Z) : TimerSession :=
  mkTimerSession uid start None dur false false false None None None.

(** A clock that stands still at [t]. *)
Definition still (t : Z) : nat -> Z := fun _ => t.

(** One 25-minute session of user [u], started at 0; the server clock
    shows 1 500 000 ms. *)
Definition world_due : World :=
  mkWorld {[ "s1" := fresh_session "u" 0 1500 ]} ∅ (still 1500000) 0.

(** The same session 100 s after its start, already flagged suspicious. *)
Definition world_flagged : World :=
  mkWorld {[ "s1" := set_drift 10000 (fresh_session "u" 0 1500) ]} ∅
          (still 100000) 0.

(** User [u] has a completed session [s1] and a newer, due session [s2]. *)
Definition world_two : World :=
  mkWorld {[ "s1" := set_completed 1500000 (fresh_session "u" 0 1500);
             "s2" := fresh_session "u" 2000000 60 ]} ∅ (still 2060000) 0.

(** Only a completed session. *)
Definition world_done : World :=
  mkWorld {[ "s1" := set_completed 1500000 (fresh_session "u" 0 1500) ]} ∅
          (still 1600000) 0.

Definition beat (e : Z) : Heartbeat := mkHeartbeat "u" "s1" (Num e) 0.

(** A streak of user [u] with [last_completed] on day [d]. *)
Definition streak_world (cur longest : Z) (d : option Z) (tz : option string)
    (clk : nat -> Z) : World :=
  mkWorld ∅ {[ "u" := mkStreak cur longest d tz ]} clk 0.

(** 2024-01-02T04:30:00Z, which is 2024-01-01 23:30 at UTC-5. *)
Definition late_evening_utc5 : Z := 1704169800000.
Definition utc_minus_5 : Z := -18000000.

(** A clock whose first reading is the last millisecond of day 9 and whose
    later readings are the first millisecond of day 10. *)
Definition midnight_clock : nat -> Z :=
  fun n => match n with O => 10 * 86400000 - 1 | _ => 10 * 86400000 end.

(** A worker with the given object store, a clock standing at [t] and the
    network up or down. *)
Definition worker_at (store : gmap string Client.TimerRecord) (t : Z)
    (net : bool) : Client.Worker :=
  Client.mkWorker store (still t) 0 net [].

(** A 25-minute timer started from the page at time 0 and saved by the
    worker; the completion sync runs when the 1 500 000 ms of the timer
    have passed, with the device online. *)
Definition worker_after_start : Client.Worker :=
  (Client.saveTimerState (Client.startTimer 25 0 0) (worker_at ∅ 0 true)).2.

Definition worker_when_due : Client.Worker :=
  Client.mkWorker (Client.activeTimers worker_after_start)
                  (still 1500000) 0 true [].

(** ** Notions used by the further properties *)

(** Row [id] is the only uncompleted session of user [uid]. *)
Definition sole_uncompleted (w : World) (uid id : string) : Prop :=
  ∀ id' ts', timer_sessions w !! id' = Some ts' →
             user_id ts' = uid → completed ts' = false → id' = id.

(** [n] completions in a row: [updateStreak] run [n] times. *)
Fixpoint complete_daily (uid : string) (n : nat) : State World unit :=
  match n with
  | O => ret tt
  | S k => updateStreak uid ;; complete_daily uid k
  end.

(** A server clock on which the [k]-th pair of readings falls at noon of
    day [d + k]. *)
Definition noon_clock (d : Z) : nat -> Z :=
  fun n => (d + Z.of_nat (Nat.div2 n)) * 86400000 + 43200000.


(** The 25-minute session of user [u], 100 s after its start. *)
Definition world_running : World :=
  mkWorld {[ "s1" := fresh_session "u" 0 1500 ]} ∅ (still 100000) 0.

(** ** The service worker's message handling and heartbeat ([sw.js]) *)

Module Sw.

(** The body posted to [/api/timer/heartbeat]: [sessionId] is [state.id]
    and [elapsed] is computed from [state.startTime]. *)
Record Beat : Type := mkBeat {
  b_userId : string;
  b_sessionId : JsValue;
  b_elapsed : JsNum;
  b_clientTime : Z
}.

(** How a run of the listener ends: to the end of its case, or in an
    exception. *)
Inductive Outcome : Type :=
| Handled
| Thrown.

(** The worker with its global [heartbeatInterval], the intervals that are
    set (each with the [userId] its callback closes over), the next handle
    [setInterval] gives out, and the heartbeat bodies handed to [fetch]. *)
Record Runtime : Type := mkRuntime {
  worker : Client.Worker;
  heartbeatInterval : option positive;
  intervals : gmap positive string;
  next_handle : positive;
  beats : list Beat
}.

Inductive Message : Type :=
| START_TIMER (data : Client.TimerData)
| STOP_TIMER
| CHECK_TIMER
| HEARTBEAT (userId : string)
| OTHER.                           (* any other [type]: no case of the switch *)

(** Runs a step of the worker's own state inside the runtime. *)
Definition lift {A : Type} (m : State Client.Worker A) : State Runtime A :=
  fun rt => match m (worker rt) with
            | (a, w') => (a, mkRuntime w' (heartbeatInterval rt) (intervals rt)
                               (next_handle rt) (beats rt))
            end.

(** [fetch('/api/timer/heartbeat', ...)], not awaited; a failure is only
    logged. *)
Definition fetch_heartbeat (b : Beat) : State Runtime unit :=
  fun rt => (tt, mkRuntime (worker rt) (heartbeatInterval rt) (intervals rt)
                           (next_handle rt) (beats rt ++ [b])).

Definition sendHeartbeat (userId : string) : State Runtime unit :=
  state <- lift Client.getTimerState ;;
  if negb (Client.truthy state) then ret tt
  else
    t <- lift Client.Date_now ;;
    let elapsed :=
      js_sub (Num t) (to_number (Client.member state "startTime")) in
    t' <- lift Client.Date_now ;;
    fetch_heartbeat (mkBeat userId (Client.member state "id") elapsed t').

(** [heartbeatInterval = setInterval(() => sendHeartbeat(userId), 30000)] *)
Definition setInterval (userId : string) : State Runtime unit :=
  fun rt => (tt, mkRuntime (worker rt) (Some (next_handle rt))
                           (<[next_handle rt := userId]> (intervals rt))
                           (Pos.succ (next_handle rt)) (beats rt)).

Definition startHeartbeat (userId : string) : State Runtime unit :=
  setInterval userId ;;
  sendHeartbeat userId.

Definition stopHeartbeat : State Runtime unit :=
  fun rt =>
    match heartbeatInterval rt with
    | Some h => (tt, mkRuntime (worker rt) None (delete h (intervals rt))
                               (next_handle rt) (beats rt))
    | None => (tt, rt)
    end.

(** The interval with handle [h] fires. *)
Definition fire (h : positive) : State Runtime unit :=
  fun rt =>
    match intervals rt !! h with
    | Some userId => sendHeartbeat userId rt
    | None => (tt, rt)
    end.

(** [event.ports[0].postMessage({ state })]: [postMessage] has to clone
    what it is given, and a request cannot be cloned (a [DataCloneError]);
    without a port the member access already fails. *)
Definition postMessage (state : Client.IDBRequest) : State Runtime Outcome :=
  ret Thrown.

(** The ['message'] listener. *)
Definition on_message (m : Message) : State Runtime Outcome :=
  match m with
  | START_TIMER data =>
      lift (Client.saveTimerState data) ;;
      startHeartbeat (Client.data_userId data) ;;
      ret Handled
  | STOP_TIMER =>
      lift Client.clearTimerState ;;
      stopHeartbeat ;;
      ret Handled
  | CHECK_TIMER =>
      state <- lift Client.getTimerState ;;
      postMessage state
  | HEARTBEAT userId =>
      sendHeartbeat userId ;;
      ret Handled
  | OTHER => ret Handled
  end.

(** The ['sync'] listener. *)
Definition on_sync (tag : string) : State Runtime unit :=
  if bool_decide (tag = "timer-complete") then lift Client.syncTimerCompletion
  else ret tt.

(** A sequence of messages, handled one after the other. *)
Fixpoint on_messages (ms : list Message) : State Runtime unit :=
  match ms with
  | [] => ret tt
  | m :: rest => on_message m ;; on_messages rest
  end.

End Sw.

(** Every interval that is set was given out by [setInterval]. *)
Definition handles_given (rt : Sw.Runtime) : Prop :=
  ∀ h, is_Some (Sw.intervals rt !! h) → (h < Sw.next_handle rt)%positive.

(** A worker that has just been started: nothing stored, no interval. *)
Definition runtime_at (t : Z) : Sw.Runtime :=
  Sw.mkRuntime (worker_at ∅ t true) None ∅ 1%positive [].

(** ** The timer page *)

Module Page.

(** Minutes and seconds are whole numbers here. The buttons of the page
    set 25 and 50 minutes, and the custom entry sets [Number(custom)]: the
    page is described for the entries that are whole numbers. On an entry
    with a fraction the page computes with floating-point numbers, which
    these definitions do not describe; every statement about the page
    below is a statement about whole numbers of minutes and seconds. *)

(** The [timerState] item of [localStorage]. *)
Record Saved : Type := mkSaved {
  s_startTime : Z;
  s_duration : Z;               (* seconds, a whole number *)
  s_isRunning : bool
}.

(** The page's state: [duration] in whole minutes, [timeLeft] in whole
    seconds, [isRunning], the number of times [handleComplete] has run,
    and the [timerState] item. *)
Record Page : Type := mkPage {
  duration : Z;
  timeLeft : Z;
  isRunning : bool;
  completions : nat;
  timerState : option Saved
}.

(** The page as it is first rendered, over what [localStorage] holds. *)
Definition initial (stored : option Saved) : Page := mkPage 25 0 false 0 stored.

(** [Math.ceil(x / 60)] on an integer [x]. *)
Definition ceil_div60 (x : Z) : Z := - ((- x) / 60).

(** A message for the worker, posted when [workerRef.current] is set. *)
Definition post (ready : bool) (m : Sw.Message) : list Sw.Message :=
  if ready then [m] else [].

(** [startTimer], with the three readings [t1], [t2], [t3] of [Date.now()]
    it takes. *)
Definition startTimer (ready : bool) (t1 t2 t3 : Z) (p : Page)
  : Page * list Sw.Message :=
  let seconds := duration p * 60 in
  (mkPage (duration p) seconds true (completions p)
          (Some (mkSaved t3 seconds true)),
   post ready (Sw.START_TIMER (Client.startTimer (duration p) t1 t2))).

Definition pauseTimer (ready : bool) (p : Page) : Page * list Sw.Message :=
  (mkPage (duration p) (timeLeft p) false (completions p) None,
   post ready Sw.STOP_TIMER).

Definition resetTimer (ready : bool) (p : Page) : Page * list Sw.Message :=
  (mkPage (duration p) 0 false (completions p) None,
   post ready Sw.STOP_TIMER).

(** The Resume button: [setIsRunning(true)]. *)
Definition resume (p : Page) : Page :=
  mkPage (duration p) (timeLeft p) true (completions p) (timerState p).

(** One firing of the countdown interval, which is set while
    [isRunning && timeLeft > 0]; [handleComplete] stops the timer. *)
Definition second (p : Page) : Page :=
  if isRunning p && (0 <? timeLeft p) then
    if timeLeft p <=? 1 then
      mkPage (duration p) 0 false (S (completions p)) (timerState p)
    else
      mkPage (duration p) (timeLeft p - 1) (isRunning p) (completions p)
             (timerState p)
  else p.

(** The effect that loads the saved state on mount, at time [now]. *)
Definition restore (now : Z) (p : Page) : Page :=
  match timerState p with
  | None => p
  | Some state =>
      let elapsed := (now - s_startTime state) / 1000 in
      let remaining := Z.max 0 (s_duration state - elapsed) in
      if (0 <? remaining) && s_isRunning state then
        mkPage (ceil_div60 (s_duration state)) remaining true (completions p)
               (timerState p)
      else p
  end.

(** Closing the page and opening it again at time [now]. *)
Definition reload (now : Z) (p : Page) : Page :=
  restore now (initial (timerState p)).

End Page.

(** ** The route middleware *)

Module Middleware.

Definition protectedRoutes : list string :=
  ["/timer"; "/streaks"; "/dashboard"; "/settings"].

Definition premiumRoutes : list string :=
  ["/timer/custom"; "/analytics"; "/export"].

(** The user of the authenticated session. *)
Record Session : Type := mkSession {
  user_id : string;
  user_email : option string
}.

(** The [status] and [tier] of a row of [subscriptions]. *)
Record Subscription : Type := mkSubscription {
  status : string;
  tier : string
}.

Inductive Outcome : Type :=
| RedirectLogin (redirect : string)        (* /login?redirect=pathname *)
| RedirectUpgrade                          (* /upgrade *)
| Next (headers : list (string * string)). (* the request goes on *)

(** [routes.some(route => pathname.startsWith(route))] *)
Definition matches (routes : list string) (pathname : string) : bool :=
  existsb (fun route => String.prefix route pathname) routes.

(** [subscription_of uid] is the result of
    [from('subscriptions').select('status, tier').eq('user_id', uid).single()]. *)
Definition middleware (pathname : string) (session : option Session)
    (subscription_of : string -> option Subscription) : Outcome :=
  let isProtectedRoute := matches protectedRoutes pathname in
  let isPremiumRoute := matches premiumRoutes pathname in
  let go_on :=
    match session with
    | Some s => Next [("x-user-id", user_id s);
                      ("x-user-email", default "" (user_email s))]
    | None => Next []
    end in
  match session with
  | None => if isProtectedRoute then RedirectLogin pathname else go_on
  | Some s =>
      if isPremiumRoute then
        match subscription_of (user_id s) with
        | None => RedirectUpgrade
        | Some subscription =>
            if negb (bool_decide (status subscription = "active"))
               || bool_decide (tier subscription = "free")
            then RedirectUpgrade
            else go_on
        end
      else go_on
  end.

End Middleware.

(** ** The daily mantra ([GET] of the mantra route)

    A string stands for the sequence of its code units, which is what
    [length] and [substring] count. *)

Module Mantra.

Definition FALLBACK_MANTRAS : list string :=
  ["Focus on progress, not perfection.";
   "Every minute of focus builds your future.";
   "Discipline is choosing between what you want now and what you want most.";
   "Your future self will thank you for not giving up.";
   "Small steps daily lead to big changes yearly.";
   "The pain of discipline weighs ounces, regret weighs tons.";
   "Winners focus on winning, losers focus on winners.";
   "Success is the sum of small efforts repeated daily.";
   "Your only limit is your mind.";
   "Dream it. Believe it. Build it."].

(** [completion.choices[0].message.content?.trim() || getFallbackMantra()],
    over the library's [trim] and the entry [fallback] that
    [getFallbackMantra] draws. *)
Definition mantra_of (trim : string -> string) (content : option string)
    (fallback : string) : string :=
  match content with
  | Some c => if bool_decide (trim c = "") then fallback else trim c
  | None => fallback
  end.

(** [mantra.length <= 80 ? mantra : mantra.substring(0, 77) + '...'] *)
Definition finalMantra (mantra : string) : string :=
  if (String.length mantra <=? 80)%nat then mantra
  else String.append (String.substring 0 77 mantra) "...".

End Mantra.

(** ** The Stripe webhook's handlers *)

Module Stripe.

Record Env : Type := mkEnv {
  STRIPE_PRICE_BASIC : option string;
  STRIPE_PRICE_PRO : option string;
  STRIPE_PRICE_PREMIUM : option string
}.

(** The property names every object inherits from [Object.prototype]. *)
Definition object_prototype_keys : list string :=
  ["constructor"; "__defineGetter__"; "__defineSetter__"; "hasOwnProperty";
   "__lookupGetter__"; "__lookupSetter__"; "isPrototypeOf";
   "propertyIsEnumerable"; "toString"; "valueOf"; "__proto__";
   "toLocaleString"].

(** What [priceTiers[priceId] || 'free'] can be: a tier name, or the member
    of [Object.prototype] that a price id names. *)
Inductive Value : Type :=
| Str (s : string)
| Inherited (key : string).

(** [o[k] = v] on an object literal whose values are strings: assigning a
    string to [__proto__] changes nothing. *)
Definition set_property (k v : string) (o : gmap string string)
  : gmap string string :=
  if bool_decide (k = "__proto__") then o else <[k := v]> o.

(** [o[k]]: the own property, else the inherited one, else [undefined]. *)
Definition get_property (k : string) (o : gmap string string) : option Value :=
  match o !! k with
  | Some v => Some (Str v)
  | None => if bool_decide (k ∈ object_prototype_keys)
            then Some (Inherited k) else None
  end.

(** [if (process.env.X) priceTiers[process.env.X] = tier] *)
Definition configure (price : option string) (tier : string)
    (o : gmap string string) : gmap string string :=
  match price with
  | Some k => if bool_decide (k = "") then o else set_property k tier o
  | None => o
  end.

Definition getTierFromPriceId (env : Env) (priceId : string) : Value :=
  let priceTiers :=
    configure (STRIPE_PRICE_PREMIUM env) "premium"
      (configure (STRIPE_PRICE_PRO env) "pro"
         (configure (STRIPE_PRICE_BASIC env) "basic" ∅)) in
  default (Str "free") (get_property priceId priceTiers).

(** Rows of [users] (keyed by [id]), [subscriptions] (keyed by [user_id])
    and [payments], with the columns the handlers read or write. *)
Record User : Type := mkUser {
  stripe_customer_id : option string;
  subscription_status : option string;
  subscription_tier : option string;
  payment_failed : option bool;
  payment_failed_at : option Z
}.

Record SubscriptionRow : Type := mkSubscriptionRow {
  status : string;
  tier : string;
  canceled_at : option Z
}.

Record Payment : Type := mkPayment {
  user_id : string;
  stripe_invoice_id : string;
  amount : Z;
  currency : string;
  payment_status : string;
  paid_at : option Z;
  failed_at : option Z
}.

Record Billing : Type := mkBilling {
  users : gmap string User;
  subscriptions : gmap string SubscriptionRow;
  payments : list Payment;
  clock : nat -> Z;
  reads : nat
}.

Record Invoice : Type := mkInvoice {
  invoice_id : string;
  customer : string;
  amount_paid : Z;
  amount_due : Z;
  invoice_currency : string
}.

Definition Date_now : State Billing Z :=
  fun w => (clock w (reads w),
            mkBilling (users w) (subscriptions w) (payments w) (clock w)
                      (S (reads w))).

Definition with_users (f : gmap string User -> gmap string User)
  : State Billing unit :=
  fun w => (tt, mkBilling (f (users w)) (subscriptions w) (payments w)
                          (clock w) (reads w)).

Definition with_subscriptions
    (f : gmap string SubscriptionRow -> gmap string SubscriptionRow)
  : State Billing unit :=
  fun w => (tt, mkBilling (users w) (f (subscriptions w)) (payments w)
                          (clock w) (reads w)).

Definition insert_payment (p : Payment) : State Billing unit :=
  fun w => (tt, mkBilling (users w) (subscriptions w) (payments w ++ [p])
                          (clock w) (reads w)).

Definition has_customer (customerId : string) (r : string * User) : Prop :=
  stripe_customer_id r.2 = Some customerId.

#[global] Instance has_customer_dec c r : Decision (has_customer c r).
Proof. unfold has_customer. apply _. Defined.

(** [from('users').select('id').eq('stripe_customer_id', customerId)
     .single()]: the id when exactly one row matches. *)
Definition user_of_customer (customerId : string) : State Billing (option string) :=
  fun w =>
    (match filter (has_customer customerId) (map_to_list (users w)) with
     | [r] => Some r.1
     | _ => None
     end, w).

Definition handlePaymentSuccess (invoice : Invoice) : State Billing unit :=
  user <- user_of_customer (customer invoice) ;;
  match user with
  | None => ret tt
  | Some uid =>
      t <- Date_now ;;
      insert_payment (mkPayment uid (invoice_id invoice) (amount_paid invoice)
                        (invoice_currency invoice) "succeeded" (Some t) None) ;;
      with_users (alter (fun u =>
        mkUser (stripe_customer_id u) (subscription_status u)
               (subscription_tier u) (Some false) None) uid)
  end.

Definition handlePaymentFailure (invoice : Invoice) : State Billing unit :=
  user <- user_of_customer (customer invoice) ;;
  match user with
  | None => ret tt
  | Some uid =>
      t <- Date_now ;;
      insert_payment (mkPayment uid (invoice_id invoice) (amount_due invoice)
                        (invoice_currency invoice) "failed" None (Some t)) ;;
      t' <- Date_now ;;
      with_users (alter (fun u =>
        mkUser (stripe_customer_id u) (subscription_status u)
               (subscription_tier u) (Some true) (Some t')) uid)
  end.

(** [customerId] is [subscription.customer]. *)
Definition handleSubscriptionCancellation (customerId : string)
  : State Billing unit :=
  user <- user_of_customer customerId ;;
  match user with
  | None => ret tt
  | Some uid =>
      t <- Date_now ;;
      with_subscriptions (alter (fun s =>
        mkSubscriptionRow "canceled" (tier s) (Some t)) uid) ;;
      with_users (alter (fun u =>
        mkUser (stripe_customer_id u) (Some "canceled") (Some "free")
               (payment_failed u) (payment_failed_at u)) uid)
  end.

(** [customerId] is [session.customer], [userId] is
    [session.client_reference_id]. *)
Definition handleCheckoutComplete (customerId : string) (userId : option string)
  : State Billing unit :=
  match userId with
  | None => ret tt
  | Some uid =>
      if bool_decide (uid = "") then ret tt
      else with_users (alter (fun u =>
             mkUser (Some customerId) (subscription_status u)
                    (subscription_tier u) (payment_failed u)
                    (payment_failed_at u)) uid)
  end.

End Stripe.

(** ** The streaks page *)

Module StreaksPage.

Definition getRankTitle (sessions : Z) : string :=
  if 500 <=? sessions then "Master"
  else if 200 <=? sessions then "Expert"
  else if 100 <=? sessions then "Advanced"
  else if 50 <=? sessions then "Intermediate"
  else if 20 <=? sessions then "Beginner"
  else "Newcomer".

Definition getRankColor (sessions : Z) : string :=
  if 500 <=? sessions then "text-purple-500"
  else if 200 <=? sessions then "text-yellow-500"
  else if 100 <=? sessions then "text-blue-500"
  else if 50 <=? sessions then "text-green-500"
  else "text-gray-500".

End StreaksPage.

(** The subscription the middleware finds for a user in the billing
    tables. *)
Definition subscription_in (w : Stripe.Billing) (uid : string)
  : option Middleware.Subscription :=
  match Stripe.subscriptions w !! uid with
  | Some s => Some (Middleware.mkSubscription (Stripe.status s) (Stripe.tier s))
  | None => None
  end.

(** The customer [customerId] belongs to user [uid] and to nobody else. *)
Definition sole_customer (w : Stripe.Billing) (customerId uid : string) : Prop :=
  (∃ u, Stripe.users w !! uid = Some u ∧
        Stripe.stripe_customer_id u = Some customerId) ∧
  (∀ uid' u', Stripe.users w !! uid' = Some u' →
              Stripe.stripe_customer_id u' = Some customerId → uid' = uid).

Definition plain_user (customerId : option string) : Stripe.User :=
  Stripe.mkUser customerId None None None None.

(** User [u1] is linked to customer [cus_1]; user [u2] is not linked. *)
Definition billing_world : Stripe.Billing :=
  Stripe.mkBilling {[ "u1" := plain_user (Some "cus_1");
                      "u2" := plain_user None ]}
                   {[ "u1" := Stripe.mkSubscriptionRow "active" "pro" None ]}
                   [] (still 1000) 0.

(** The variable [p] of the environment is set, not empty, and equal to
    [priceId]. *)
Definition configured (p : option string) (priceId : string) : bool :=
  bool_decide (p = Some priceId ∧ priceId ≠ "").

(** Unfolds the store and clock primitives of a handler. *)
Ltac run_state :=
  unfold completeTimer, update_session, with_sessions, with_streaks,
         select_streak, Date_now, bind, ret; simpl.

(** ** Lemmas on the store *)

Lemma newest_elem rows r : newest rows = Some r → r ∈ rows.
Proof.
  revert r. induction rows as [|x rows IH]; intros r; simpl; [done|].
  destruct (newest rows) as [b|].
  - destruct (start_time x.2 <? start_time b.2); intros [= <-].
    + right. by apply IH.
    + left.
  - intros [= <-]. left.
Qed.

Lemma newest_None rows : newest rows = None → rows = [].
Proof.
  destruct rows as [|x rows]; simpl; [done|].
  destruct (newest rows) as [b|]; [|done].
  by destruct (start_time x.2 <? start_time b.2).
Qed.

Lemma newest_greatest rows r x :
  newest rows = Some r → x ∈ rows → start_time x.2 ≤ start_time r.2.
Proof.
  revert r. induction rows as [|y rows IH]; intros r; simpl; [done|].
  destruct (newest rows) as [b|] eqn:Hb.
  - destruct (Z.ltb_spec (start_time y.2) (start_time b.2)) as [Hlt|Hge];
      intros [= <-] [->|Hin]%elem_of_cons; try lia.
    + by apply IH.
    + specialize (IH b eq_refl Hin). lia.
  - apply newest_None in Hb as ->.
    intros [= <-] [->|Hin]%elem_of_cons; [lia|]. by apply elem_of_nil in Hin.
Qed.

(** The selected row is a row of the table, belongs to the user and is not
    completed. *)
Lemma selected_Some w uid id ts :
  selected w uid = Some (id, ts) →
  timer_sessions w !! id = Some ts ∧ user_id ts = uid ∧ completed ts = false.
Proof.
  unfold selected, select_active; simpl. intros H%newest_elem.
  apply list_elem_of_filter in H as [[Hu Hc] Hin].
  by apply elem_of_map_to_list in Hin.
Qed.

(** No row is selected exactly when every session of the user is
    completed. *)
Lemma selected_None w uid :
  selected w uid = None ↔
  ∀ id ts, timer_sessions w !! id = Some ts → user_id ts = uid → completed ts = true.
Proof.
  unfold selected, select_active; simpl. split.
  - intros H%newest_None id ts Hl Hu.
    destruct (completed ts) eqn:Hc; [done|].
    assert ((id, ts) ∈ filter (uncompleted_of uid) (map_to_list (timer_sessions w))) as Hin.
    { apply list_elem_of_filter. split; [by split|]. by apply elem_of_map_to_list. }
    rewrite H in Hin. by apply elem_of_nil in Hin.
  - intros Hall.
    destruct (newest _) as [[id ts]|] eqn:Hn; [|done].
    apply newest_elem, list_elem_of_filter in Hn as [[Hu Hc] Hin].
    apply elem_of_map_to_list in Hin. simpl in *.
    rewrite (Hall id ts Hin Hu) in Hc. done.
Qed.

(** The selected row is a newest one among the user's uncompleted rows. *)
Lemma selected_newest w uid id ts id' ts' :
  selected w uid = Some (id, ts) →
  timer_sessions w !! id' = Some ts' → user_id ts' = uid → completed ts' = false →
  start_time ts' ≤ start_time ts.
Proof.
  unfold selected, select_active; simpl. intros Hn Hl Hu Hc.
  apply (newest_greatest _ (id, ts) (id', ts') Hn).
  apply list_elem_of_filter. split; [by split|]. by apply elem_of_map_to_list.
Qed.

Lemma alter_lookup_insert {A} (f : A → A) (m : gmap string A) i x :
  m !! i = Some x → alter f i m = <[i := f x]> m.
Proof.
  intros Hx. apply map_eq. intros j. rewrite lookup_alter, lookup_insert.
  destruct (decide (i = j)) as [->|]; [by rewrite Hx | done].
Qed.

(** ** Running the handlers *)

Lemma select_active_run uid w : select_active uid w = (selected w uid, w).
Proof. reflexivity. Qed.

Lemma authorised_true (auth : option string) uid :
  auth = Some uid → negb (bool_decide (auth = Some uid)) = false.
Proof. intros ->. by rewrite bool_decide_eq_true_2. Qed.

(** [updateStreak] leaves the sessions and the clock alone, takes two
    readings and touches no other user's streak. *)
Lemma updateStreak_frame uid w :
  timer_sessions (updateStreak uid w).2 = timer_sessions w ∧
  clock (updateStreak uid w).2 = clock w ∧
  reads (updateStreak uid w).2 = S (S (reads w)).
Proof.
  unfold updateStreak. run_state.
  destruct (streaks w !! uid) as [s|]; simpl; [|done].
  repeat case_bool_decide; simpl; done.
Qed.

Lemma updateStreak_other uid uid' w :
  uid ≠ uid' → streaks (updateStreak uid w).2 !! uid' = streaks w !! uid'.
Proof.
  intros Hne. unfold updateStreak. run_state.
  destruct (streaks w !! uid) as [s|]; simpl.
  - repeat case_bool_decide; simpl; try done; by rewrite lookup_alter_ne.
  - by rewrite lookup_insert_ne.
Qed.

(** The streak row of the user after [updateStreak], by the code's three
    tests on [last_completed]. *)
Lemma updateStreak_lookup uid w :
  let today := utc_date (clock w (reads w)) in
  let yesterday := utc_date (clock w (S (reads w)) - 86400000) in
  streaks (updateStreak uid w).2 !! uid =
    match streaks w !! uid with
    | None => Some (mkStreak 1 1 (Some today) None)
    | Some s =>
        if bool_decide (last_completed s = Some yesterday) then
          Some (mkStreak (current_streak s + 1)
                         (Z.max (current_streak s + 1) (longest_streak s))
                         (Some today) (timezone s))
        else if bool_decide (last_completed s = Some today) then Some s
        else Some (mkStreak 1 (longest_streak s) (Some today) (timezone s))
    end.
Proof.
  unfold updateStreak. run_state.
  destruct (streaks w !! uid) as [s|] eqn:Hs; simpl.
  - repeat case_bool_decide; simpl; try done;
      by rewrite lookup_alter_eq, Hs.
  - by rewrite lookup_insert_eq.
Qed.

(** Whatever the branch, the row exists afterwards and its
    [last_completed] is [today]. *)
Lemma updateStreak_last_completed uid w :
  ∃ s', streaks (updateStreak uid w).2 !! uid = Some s' ∧
        last_completed s' = Some (today_of w).
Proof.
  rewrite updateStreak_lookup. unfold today_of.
  destruct (streaks w !! uid) as [s|]; [|by eexists].
  repeat case_bool_decide; by eexists.
Qed.

Lemma utc_date_day_before t : utc_date (t - 86400000) = utc_date t - 1.
Proof.
  unfold utc_date.
  replace (t - 86400000) with (t + (-1) * 86400000) by lia.
  rewrite Z.div_add by lia. lia.
Qed.

(** The drift check fires exactly on a numeric [elapsed] that is more than
    5000 away from the server-elapsed value. *)
Lemma drift_exceeds_true w ts e :
  drift_exceeds w ts e = true ↔ ∃ z, e = Num z ∧ 5000 < timeDrift w ts z.
Proof.
  destruct e as [z|]; simpl.
  - rewrite Z.ltb_lt. split; [by exists z|]. by intros (z' & [= <-] & Hz).
  - split; [done|]. by intros (z & ? & _).
Qed.

Lemma drift_within w ts e z :
  e = Num z → timeDrift w ts z ≤ 5000 → drift_exceeds w ts e = false.
Proof. intros -> Hz. simpl. by apply Z.ltb_ge. Qed.


(** The three ways a validated heartbeat ends. *)
Section Heartbeat.
Variables (w : World) (auth : option string) (b : Heartbeat).
Variables (id : string) (ts : TimerSession).
Hypothesis Hauth : auth = Some (userId b).
Hypothesis Hsel : selected w (userId b) = Some (id, ts).

Lemma POST_drift e :
  elapsed b = Num e →
  5000 < timeDrift w ts e →
  POST auth (Some b) w =
    (DriftWarning (clock w (S (reads w))) (timeDrift w ts e),
     mkWorld (<[id := set_drift (timeDrift w ts e) ts]> (timer_sessions w))
             (streaks w) (clock w) (S (S (reads w)))).
Proof using Hauth Hsel.
  intros He Hd. apply selected_Some in Hsel as Hrow. destruct Hrow as (Hl & _ & _).
  unfold POST. rewrite (authorised_true _ _ Hauth).
  unfold bind at 1. rewrite select_active_run, Hsel. rewrite He. run_state.
  unfold timeDrift, serverElapsed in *.
  rewrite (proj2 (Z.ltb_lt _ _) Hd). simpl.
  by rewrite (alter_lookup_insert _ _ _ _ Hl).
Qed.

Lemma POST_active :
  drift_exceeds w ts (elapsed b) = false →
  serverElapsed w ts < duration ts * 1000 →
  POST auth (Some b) w =
    (Active (clock w (S (S (reads w)))) (serverElapsed w ts)
            (duration ts * 1000 - serverElapsed w ts),
     mkWorld (<[id := set_heartbeat (clock w (S (reads w)))
                        (or_zero (heartbeat_count ts) + 1) ts]> (timer_sessions w))
             (streaks w) (clock w) (S (S (S (reads w))))).
Proof using Hauth Hsel.
  intros Hd Hse. apply selected_Some in Hsel as Hrow. destruct Hrow as (Hl & _ & _).
  unfold POST. rewrite (authorised_true _ _ Hauth).
  unfold bind at 1. rewrite select_active_run, Hsel.
  unfold drift_exceeds, timeDrift, serverElapsed in *.
  destruct (elapsed b) as [e|]; run_state; [rewrite Hd; simpl|];
    rewrite (proj2 (Z.leb_gt _ _) Hse); simpl;
    by rewrite (alter_lookup_insert _ _ _ _ Hl).
Qed.

Lemma POST_completed :
  drift_exceeds w ts (elapsed b) = false →
  duration ts * 1000 ≤ serverElapsed w ts →
  POST auth (Some b) w =
    (Completed (serverElapsed w ts),
     (updateStreak (userId b)
        (mkWorld (<[id := set_completed (clock w (S (S (reads w))))
                            (set_heartbeat (clock w (S (reads w)))
                               (or_zero (heartbeat_count ts) + 1) ts)]>
                    (timer_sessions w))
                 (streaks w) (clock w) (S (S (S (reads w)))))).2).
Proof using Hauth Hsel.
  intros Hd Hse. apply selected_Some in Hsel as Hrow. destruct Hrow as (Hl & _ & _).
  unfold POST. rewrite (authorised_true _ _ Hauth).
  unfold bind at 1. rewrite select_active_run, Hsel.
  unfold drift_exceeds, timeDrift, serverElapsed in *.
  destruct (elapsed b) as [e|]; run_state; [rewrite Hd; simpl|];
    rewrite (proj2 (Z.leb_le _ _) Hse); simpl;
    rewrite (alter_lookup_insert _ _ _ _ Hl);
    (erewrite alter_lookup_insert by apply lookup_insert_eq);
    rewrite insert_insert_eq;
    by destruct (updateStreak _ _) as [[] ?].
Qed.
End Heartbeat.

(** Every call either answers an error and writes nothing, or is validated
    against the selected row and ends in one of the three ways above. *)
Lemma POST_cases auth body w :
  (POST auth body w).2 = w ∧
    (POST auth body w).1 ∈ [InternalError; Unauthorized; NoActiveSession]
  ∨ ∃ b id ts,
      body = Some b ∧ auth = Some (userId b) ∧
      selected w (userId b) = Some (id, ts) ∧
      timer_sessions w !! id = Some ts ∧
      let se := serverElapsed w ts in
      ((∃ e, elapsed b = Num e ∧ 5000 < timeDrift w ts e)
       ∨ drift_exceeds w ts (elapsed b) = false ∧ se < duration ts * 1000
       ∨ drift_exceeds w ts (elapsed b) = false ∧ duration ts * 1000 ≤ se).
Proof.
  destruct body as [b|]; [|left; split; [done|set_solver]].
  destruct (decide (auth = Some (userId b))) as [Hauth|Hauth].
  - destruct (selected w (userId b)) as [[id ts]|] eqn:Hsel.
    + right. exists b, id, ts.
      destruct (selected_Some _ _ _ _ Hsel) as (Hl & _ & _).
      repeat split; try done. simpl.
      destruct (drift_exceeds w ts (elapsed b)) eqn:Hd.
      * left. by apply drift_exceeds_true.
      * right. destruct (Z.le_gt_cases (duration ts * 1000) (serverElapsed w ts));
          [by right | by left].
    + left. unfold POST. rewrite (authorised_true _ _ Hauth).
      unfold bind. rewrite select_active_run, Hsel. simpl.
      split; [done|set_solver].
  - left. unfold POST. rewrite bool_decide_eq_false_2 by done. simpl.
    split; [done|set_solver].
Qed.

(** A validated heartbeat on which the drift check does not fire leaves
    every row's suspicious flag as it was. *)
Lemma POST_in_tolerance_flag w auth b id ts id' :
  auth = Some (userId b) →
  selected w (userId b) = Some (id, ts) →
  drift_exceeds w ts (elapsed b) = false →
  session_suspicious (POST auth (Some b) w).2 id' = session_suspicious w id'.
Proof.
  intros Hauth Hsel Hd.
  destruct (selected_Some _ _ _ _ Hsel) as (Hl & _ & _).
  unfold session_suspicious.
  destruct (Z.le_gt_cases (duration ts * 1000) (serverElapsed w ts)).
  - rewrite (POST_completed w auth b id ts) by done. simpl.
    rewrite (proj1 (updateStreak_frame _ _)). simpl.
    rewrite lookup_insert. case_decide as Hid; [subst id'|done].
    by rewrite Hl.
  - rewrite (POST_active w auth b id ts) by done. simpl.
    rewrite lookup_insert. case_decide as Hid; [subst id'|done].
    by rewrite Hl.
Qed.

(** ** The claims *)

(** *** C1 *)




(** *** C2 *)

(** C2: a heartbeat whose drift exceeds 5000 ms flags the session
    suspicious, stores the drift, answers a drift warning with a reading of
    the server clock and the drift, and does not complete the session nor
    touch the streaks, whatever the server-elapsed value. *)
Theorem drift_flags_and_does_not_complete w auth b id ts e :
  auth = Some (userId b) →
  selected w (userId b) = Some (id, ts) →
  elapsed b = Num e →
  5000 < timeDrift w ts e →
  (POST auth (Some b) w).1 =
    DriftWarning (clock w (S (reads w))) (timeDrift w ts e) ∧
  (∃ ts', timer_sessions (POST auth (Some b) w).2 !! id = Some ts' ∧
          suspicious ts' = true ∧
          drift_amount ts' = Some (timeDrift w ts e) ∧
          completed ts' = false ∧ end_time ts' = end_time ts) ∧
  streaks (POST auth (Some b) w).2 = streaks w.
Proof.
  intros Hauth Hsel He Hd.
  destruct (selected_Some _ _ _ _ Hsel) as (Hl & Hu & Hc).
  rewrite (POST_drift w auth b id ts Hauth Hsel e He Hd). simpl.
  split; [done|]. split; [|done].
  eexists. rewrite lookup_insert_eq. by repeat split.
Qed.

Lemma drift_flags_and_does_not_complete_witness :
  duration (fresh_session "u" 0 1500) * 1000
    ≤ serverElapsed world_due (fresh_session "u" 0 1500) ∧
  (POST (Some "u") (Some (beat (-1))) world_due).1 =
    DriftWarning 1500000 1500001 ∧
  session_completed (POST (Some "u") (Some (beat (-1))) world_due).2 "s1" = false.
Proof.
  split; [by vm_compute|].
  destruct (drift_flags_and_does_not_complete
              world_due (Some "u") (beat (-1)) "s1" (fresh_session "u" 0 1500)
              (-1))
    as (Hr & (ts' & Hl & _ & _ & Hc & _) & _).
  - reflexivity.
  - vm_compute. reflexivity.
  - reflexivity.
  - vm_compute. reflexivity.
  - split; [exact Hr|]. unfold session_completed. rewrite Hl. exact Hc.
Defined.

(** *** C3 *)

(** C3: a heartbeat within tolerance whose server-elapsed value has reached
    [duration * 1000] marks the row completed with an [end_time] read from
    the server clock, runs [updateStreak] for the session's user before it
    answers, and answers [completed] with the server-elapsed value. *)
Theorem in_tolerance_due_heartbeat_completes w auth b id ts e :
  auth = Some (userId b) →
  selected w (userId b) = Some (id, ts) →
  elapsed b = Num e →
  timeDrift w ts e ≤ 5000 →
  duration ts * 1000 ≤ serverElapsed w ts →
  (POST auth (Some b) w).1 = Completed (serverElapsed w ts) ∧
  (∃ ts', timer_sessions (POST auth (Some b) w).2 !! id = Some ts' ∧
          completed ts' = true ∧
          end_time ts' = Some (clock w (S (S (reads w)))) ∧
          start_time ts' = start_time ts ∧ duration ts' = duration ts) ∧
  (∃ w1, (POST auth (Some b) w).2 = (updateStreak (user_id ts) w1).2 ∧
         streaks w1 = streaks w ∧ session_completed w1 id = true) ∧
  (∃ s, streaks (POST auth (Some b) w).2 !! user_id ts = Some s ∧
        last_completed s = Some (utc_date (clock w (S (S (S (reads w))))))).
Proof.
  intros Hauth Hsel He Hd Hse.
  destruct (selected_Some _ _ _ _ Hsel) as (Hl & Hu & Hc).
  pose proof (drift_within w ts _ e He Hd) as Hin.
  rewrite (POST_completed w auth b id ts) by done. simpl. rewrite Hu.
  split; [done|]. split; [|split].
  - rewrite (proj1 (updateStreak_frame _ _)). simpl.
    eexists. rewrite lookup_insert_eq. by repeat split.
  - eexists. split; [done|]. split; [done|].
    unfold session_completed. simpl. by rewrite lookup_insert_eq.
  - apply updateStreak_last_completed.
Qed.

Lemma in_tolerance_due_heartbeat_completes_witness :
  (POST (Some "u") (Some (beat 1500000)) world_due).1 = Completed 1500000.
Proof.
  refine (proj1 (in_tolerance_due_heartbeat_completes
            world_due (Some "u") (beat 1500000) "s1"
            (fresh_session "u" 0 1500) 1500000 _ _ _ _ _)).
  - reflexivity.
  - vm_compute. reflexivity.
  - reflexivity.
  - by vm_compute.
  - by vm_compute.
Defined.

(** *** C4 *)

(** C4, as stated, fails: a heartbeat with no drift at all on a session
    that is flagged suspicious leaves it flagged. *)
Lemma in_tolerance_heartbeat_keeps_flag :
  session_suspicious world_flagged "s1" = true ∧
  timeDrift world_flagged (set_drift 10000 (fresh_session "u" 0 1500)) 100000
    ≤ 5000 ∧
  session_suspicious
    (POST (Some "u") (Some (beat 100000)) world_flagged).2 "s1" = true.
Proof. by vm_compute. Qed.

(** C4 (amended): a heartbeat whose drift exceeds 5000 ms sets the
    suspicious flag; one within tolerance leaves the flag as it was; and no
    call of the endpoint, whatever its input and outcome, clears the flag
    of any session. *)
Theorem suspicious_flag_after_heartbeat w auth b id ts e :
  auth = Some (userId b) →
  selected w (userId b) = Some (id, ts) →
  elapsed b = Num e →
  (5000 < timeDrift w ts e →
   session_suspicious (POST auth (Some b) w).2 id = true) ∧
  (timeDrift w ts e ≤ 5000 →
   session_suspicious (POST auth (Some b) w).2 id = suspicious ts) ∧
  (∀ auth' body' w' id',
     session_suspicious w' id' = true →
     session_suspicious (POST auth' body' w').2 id' = true).
Proof.
  intros Hauth Hsel He.
  destruct (selected_Some _ _ _ _ Hsel) as (Hl & Hu & Hc).
  split; [|split].
  - intros Hd. unfold session_suspicious.
    rewrite (POST_drift w auth b id ts Hauth Hsel e He Hd). simpl.
    by rewrite lookup_insert_eq.
  - intros Hd. pose proof (drift_within w ts _ e He Hd) as Hin.
    rewrite (POST_in_tolerance_flag w auth b id ts) by done.
    unfold session_suspicious. by rewrite Hl.
  - clear. intros auth body w id' Hflag.
    destruct (POST_cases auth body w)
      as [[-> _]|(b & id & ts & -> & Hauth & Hsel & Hl & Hcases)]; [done|].
    simpl in Hcases. destruct Hcases as [(e & He & Hd)|[[Hd _]|[Hd _]]].
    + unfold session_suspicious.
      rewrite (POST_drift w auth b id ts Hauth Hsel e He Hd). simpl.
      rewrite lookup_insert. case_decide; [done|exact Hflag].
    + by rewrite (POST_in_tolerance_flag w auth b id ts).
    + by rewrite (POST_in_tolerance_flag w auth b id ts).
Qed.

Lemma suspicious_flag_after_heartbeat_witness :
  session_suspicious
    (POST (Some "u") (Some (beat 100000)) world_flagged).2 "s1" = true.
Proof.
  refine (proj1 (proj2 (suspicious_flag_after_heartbeat
            world_flagged (Some "u") (beat 100000) "s1"
            (set_drift 10000 (fresh_session "u" 0 1500)) 100000 _ _ _)) _).
  - reflexivity.
  - vm_compute. reflexivity.
  - reflexivity.
  - by vm_compute.
Defined.

(** *** C5 *)

(** C5, as stated, fails: a heartbeat that names the completed session
    [s1] is not rejected when the user has another, uncompleted session; it
    is validated against that one, here completes it, and [updateStreak]
    runs. *)
Lemma heartbeat_naming_completed_session_accepted :
  session_completed world_two "s1" = true ∧
  (POST (Some "u") (Some (mkHeartbeat "u" "s1" (Num 60000) 0)) world_two).1
    = Completed 60000 ∧
  streaks world_two !! "u" = None ∧
  streaks (POST (Some "u") (Some (mkHeartbeat "u" "s1" (Num 60000) 0)) world_two).2
    !! "u" = Some (mkStreak 1 1 (Some 0) None).
Proof. by vm_compute. Qed.

(** C5 (amended): when every session of the user is completed, the
    heartbeat is rejected with [No active timer session], nothing is
    written and [updateStreak] does not run; a second call gives the same
    answer and still leaves the state as it was. *)
Theorem heartbeat_without_uncompleted_session_rejected w auth b :
  auth = Some (userId b) →
  (∀ id ts, timer_sessions w !! id = Some ts →
            user_id ts = userId b → completed ts = true) →
  POST auth (Some b) w = (NoActiveSession, w) ∧
  POST auth (Some b) (POST auth (Some b) w).2 = (NoActiveSession, w).
Proof.
  intros Hauth Hall. apply selected_None in Hall.
  assert (POST auth (Some b) w = (NoActiveSession, w)) as Hrun.
  { unfold POST. rewrite (authorised_true _ _ Hauth).
    unfold bind. by rewrite select_active_run, Hall. }
  by rewrite !Hrun.
Qed.

Lemma heartbeat_without_uncompleted_session_rejected_witness :
  POST (Some "u") (Some (beat 1600000)) world_done = (NoActiveSession, world_done).
Proof.
  refine (proj1 (heartbeat_without_uncompleted_session_rejected
            world_done (Some "u") (beat 1600000) _ _)).
  - reflexivity.
  - intros id ts Hl _.
    destruct (decide (id = "s1")) as [->|Hne].
    + vm_compute in Hl. by injection Hl as <-.
    + unfold world_done in Hl. simpl in Hl.
      rewrite lookup_singleton_ne in Hl by done. discriminate.
Defined.

(** *** C6 *)

(** C6 fails on the code: [updateStreak] reads the clock twice, once for
    [today] and once for [yesterday]. When the first reading is the last
    millisecond of day 9 and the second the first millisecond of day 10,
    both are day 9; a row whose [last_completed] is day 9, the completion
    date, is then taken for a row of yesterday and continued, from 3 to 4,
    where the rule leaves it as it is. *)
Theorem same_day_completion_continued_across_midnight :
  utc_date (midnight_clock 0) = 9 ∧
  utc_date (midnight_clock 1 - 86400000) = 9 ∧
  streaks (streak_world 3 5 (Some 9) None midnight_clock) !! "u"
    = Some (mkStreak 3 5 (Some 9) None) ∧
  streaks (updateStreak "u"
             (streak_world 3 5 (Some 9) None midnight_clock)).2 !! "u"
    = Some (mkStreak 4 5 (Some 9) None).
Proof. by vm_compute. Qed.

(** *** C7 *)

(** C7 fails on the code: the date [updateStreak] compares with and stores
    is the UTC date of the server clock; the row's [timezone] is never
    read. At 23:30 on 2024-01-01 in a zone five hours behind UTC (day
    19723 there), a user whose last completion was on day 19722 gets
    [last_completed = 19724] and the streak reset to 1. *)
Theorem streak_date_is_utc_date :
  calendarDate late_evening_utc5 utc_minus_5 = 19723 ∧
  streaks (updateStreak "u"
             (streak_world 3 5 (Some 19722) (Some "America/New_York")
                           (still late_evening_utc5))).2 !! "u"
    = Some (mkStreak 1 5 (Some 19724) (Some "America/New_York")).
Proof. by vm_compute. Qed.

(** *** C8 *)

(** C8, as stated, fails: with [last_completed] on day 10 and a completion
    on day 5, [last_completed] goes back to day 5. *)
Lemma last_completed_regresses :
  streaks (streak_world 3 5 (Some 10) None (still (5 * 86400000))) !! "u"
    = Some (mkStreak 3 5 (Some 10) None) ∧
  streaks (updateStreak "u"
             (streak_world 3 5 (Some 10) None (still (5 * 86400000)))).2 !! "u"
    = Some (mkStreak 1 5 (Some 5) None).
Proof. by vm_compute. Qed.

(** C8 (amended): after [updateStreak] the row's [last_completed] is the
    completion date [today]; so it is not before the stored date whenever
    the stored date is not after [today], and it is before the stored date
    when that one lies after [today]. *)
Theorem last_completed_becomes_today w uid s d :
  streaks w !! uid = Some s →
  last_completed s = Some d →
  ∃ s' d', streaks (updateStreak uid w).2 !! uid = Some s' ∧
           last_completed s' = Some d' ∧
           d' = today_of w ∧
           (d ≤ today_of w → d ≤ d') ∧
           (today_of w < d → d' < d).
Proof.
  intros Hs Hlast.
  destruct (updateStreak_last_completed uid w) as (s' & Hs' & Hlast').
  exists s', (today_of w). repeat split; try done; lia.
Qed.

Lemma last_completed_becomes_today_witness :
  ∃ s' d', streaks (updateStreak "u"
                      (streak_world 3 5 (Some 3) None (still (5 * 86400000)))).2
             !! "u" = Some s' ∧
           last_completed s' = Some d' ∧
           d' = 5 ∧ (3 ≤ 5 → 3 ≤ d') ∧ (5 < 3 → d' < 3).
Proof.
  refine (last_completed_becomes_today
            (streak_world 3 5 (Some 3) None (still (5 * 86400000)))
            "u" (mkStreak 3 5 (Some 3) None) 3 _ _).
  - vm_compute. reflexivity.
  - reflexivity.
Defined.

(** *** C9 *)

(** Whatever is stored and whatever the clock shows, the completion sync
    takes one reading of the clock and does nothing else: the members it
    reads off the request are [undefined], the elapsed time is [NaN], and
    the test [elapsed >= state.duration] is false. *)
Lemma syncTimerCompletion_run (w : Client.Worker) :
  Client.syncTimerCompletion w =
    (tt, Client.mkWorker (Client.activeTimers w) (Client.clock w)
           (S (Client.reads w)) (Client.online w) (Client.posted w)).
Proof. reflexivity. Qed.

(** C9 fails on the code: the sync awaits the request [store.get] returns
    instead of its result, so it never sees the stored timer. With a
    25-minute timer stored at time 0 and the clock at 1 500 000 ms, when
    the local elapsed time has reached [duration * 1000], nothing is
    posted and the record stays. *)
Theorem completion_sync_sends_nothing_when_due :
  Client.activeTimers worker_when_due !! "current"
    = Some (Client.mkTimerRecord 0 1500 0 "demo-user" 0) ∧
  1500 * 1000 ≤ 1500000 - 0 ∧
  Client.posted (Client.syncTimerCompletion worker_when_due).2 = [] ∧
  Client.activeTimers (Client.syncTimerCompletion worker_when_due).2
    !! "current" = Some (Client.mkTimerRecord 0 1500 0 "demo-user" 0).
Proof. by vm_compute. Qed.

(** *** C10 *)

(** C10: a heartbeat whose drift exceeds 5000 ms writes [suspicious] and
    [drift_amount] of the selected row and nothing else: every other field
    of the row, in particular [heartbeat_count] and [last_heartbeat], every
    other row and the streaks are as before. And no call of the endpoint,
    whatever its input and outcome, changes the [start_time] or the
    [duration] of any row. *)
Theorem drift_heartbeat_frame w auth b id ts e :
  auth = Some (userId b) →
  selected w (userId b) = Some (id, ts) →
  elapsed b = Num e →
  5000 < timeDrift w ts e →
  timer_sessions (POST auth (Some b) w).2 !! id =
    Some (mkTimerSession (user_id ts) (start_time ts) (end_time ts) (duration ts)
            (completed ts) (validated ts)
            true (Some (timeDrift w ts e))
            (last_heartbeat ts) (heartbeat_count ts)) ∧
  (∀ id', id ≠ id' →
          timer_sessions (POST auth (Some b) w).2 !! id' = timer_sessions w !! id') ∧
  streaks (POST auth (Some b) w).2 = streaks w ∧
  (∀ auth' body' w' id' ts',
     timer_sessions w' !! id' = Some ts' →
     ∃ ts'', timer_sessions (POST auth' body' w').2 !! id' = Some ts'' ∧
             start_time ts'' = start_time ts' ∧ duration ts'' = duration ts').
Proof.
  intros Hauth Hsel He Hd.
  split; [|split; [|split]].
  - rewrite (POST_drift w auth b id ts Hauth Hsel e He Hd). simpl.
    by rewrite lookup_insert_eq.
  - intros id' Hne. rewrite (POST_drift w auth b id ts Hauth Hsel e He Hd). simpl.
    by rewrite lookup_insert_ne.
  - by rewrite (POST_drift w auth b id ts Hauth Hsel e He Hd).
  - clear. intros auth body w id' ts' Hrow.
    destruct (POST_cases auth body w)
      as [[-> _]|(b & id & ts & -> & Hauth & Hsel & Hl & Hcases)].
    { by exists ts'. }
    simpl in Hcases. destruct Hcases as [(e & He & Hd)|[[Hd Hse]|[Hd Hse]]].
    + rewrite (POST_drift w auth b id ts Hauth Hsel e He Hd). simpl.
      rewrite lookup_insert. case_decide as Hid; [subst id'|by exists ts'].
      eexists. split; [done|]. rewrite Hl in Hrow. by injection Hrow as <-.
    + rewrite (POST_active w auth b id ts) by done. simpl.
      rewrite lookup_insert. case_decide as Hid; [subst id'|by exists ts'].
      eexists. split; [done|]. rewrite Hl in Hrow. by injection Hrow as <-.
    + rewrite (POST_completed w auth b id ts) by done. simpl.
      rewrite (proj1 (updateStreak_frame _ _)). simpl.
      rewrite lookup_insert. case_decide as Hid; [subst id'|by exists ts'].
      eexists. split; [done|]. rewrite Hl in Hrow. by injection Hrow as <-.
Qed.

Lemma drift_heartbeat_frame_witness :
  timer_sessions (POST (Some "u") (Some (beat (-1))) world_due).2 !! "s1" =
    Some (mkTimerSession "u" 0 None 1500 false false true (Some 1500001) None None).
Proof.
  refine (proj1 (drift_heartbeat_frame
            world_due (Some "u") (beat (-1)) "s1" (fresh_session "u" 0 1500)
            (-1) _ _ _ _)).
  - reflexivity.
  - vm_compute. reflexivity.
  - reflexivity.
  - by vm_compute.
Defined.

(** ** Further properties of the heartbeat endpoint *)

Lemma POST_no_selection w auth b :
  auth = Some (userId b) →
  selected w (userId b) = None →
  POST auth (Some b) w = (NoActiveSession, w).
Proof.
  intros Hauth Hnone. unfold POST. rewrite (authorised_true _ _ Hauth).
  unfold bind. by rewrite select_active_run, Hnone.
Qed.

Lemma selected_sole w uid id ts :
  sole_uncompleted w uid id →
  timer_sessions w !! id = Some ts → user_id ts = uid → completed ts = false →
  selected w uid = Some (id, ts).
Proof.
  intros Hsole Hl Hu Hc.
  destruct (selected w uid) as [[id' ts']|] eqn:Hsel.
  - destruct (selected_Some _ _ _ _ Hsel) as (Hl' & Hu' & Hc').
    pose proof (Hsole id' ts' Hl' Hu' Hc') as ->. congruence.
  - rewrite (proj1 (selected_None w uid) Hsel id ts Hl Hu) in Hc. done.
Qed.

(** The sessions after a validated call, row by row. *)
Lemma POST_sessions_after w auth b id ts :
  auth = Some (userId b) →
  selected w (userId b) = Some (id, ts) →
  ∃ ts', timer_sessions (POST auth (Some b) w).2
           = <[id := ts']> (timer_sessions w) ∧
         user_id ts' = user_id ts ∧ start_time ts' = start_time ts ∧
         duration ts' = duration ts ∧
         (completed ts' = true ↔
          drift_exceeds w ts (elapsed b) = false ∧
          duration ts * 1000 ≤ serverElapsed w ts).
Proof.
  intros Hauth Hsel.
  destruct (selected_Some _ _ _ _ Hsel) as (Hl & Hu & Hc).
  destruct (drift_exceeds w ts (elapsed b)) eqn:Hd.
  - apply drift_exceeds_true in Hd as (e & He & Hd).
    rewrite (POST_drift w auth b id ts Hauth Hsel e He Hd). simpl.
    eexists. split; [done|]. simpl. rewrite Hc.
    repeat split; try done; by intros [? _].
  - destruct (Z.le_gt_cases (duration ts * 1000) (serverElapsed w ts)) as [Hse|Hse].
    + rewrite (POST_completed w auth b id ts) by done. simpl.
      rewrite (proj1 (updateStreak_frame _ _)). simpl.
      eexists. split; [done|]. simpl. repeat split; done.
    + rewrite (POST_active w auth b id ts) by done. simpl.
      eexists. split; [done|]. simpl. rewrite Hc. repeat split; try done; lia.
Qed.

(** X1: a call changes no session row and no streak row of a user other
    than the authenticated one. *)
Theorem POST_touches_only_callers_rows auth body w :
  (∀ id ts, timer_sessions w !! id = Some ts → auth ≠ Some (user_id ts) →
            timer_sessions (POST auth body w).2 !! id = Some ts) ∧
  (∀ uid, auth ≠ Some uid →
          streaks (POST auth body w).2 !! uid = streaks w !! uid).
Proof.
  destruct (POST_cases auth body w)
    as [[-> _]|(b & id & ts & -> & Hauth & Hsel & Hl & Hcases)]; [done|].
  destruct (selected_Some _ _ _ _ Hsel) as (_ & Hu & Hc).
  split.
  - intros id' ts' Hl' Hother.
    destruct (POST_sessions_after w auth b id ts Hauth Hsel) as (r & -> & _).
    rewrite lookup_insert. case_decide as Hid; [subst id'|done].
    rewrite Hl in Hl'. injection Hl' as <-. rewrite Hu in Hother. done.
  - intros uid Hother. simpl in Hcases.
    destruct Hcases as [(e & He & Hd)|[[Hd Hse]|[Hd Hse]]].
    + by rewrite (POST_drift w auth b id ts Hauth Hsel e He Hd).
    + by rewrite (POST_active w auth b id ts).
    + rewrite (POST_completed w auth b id ts) by done. simpl.
      rewrite updateStreak_other; [done|]. intros Heq. apply Hother. by rewrite <- Heq.
Qed.

(** X2: a call neither adds nor removes a session row, and a row that is
    completed is never written again. *)
Theorem POST_keeps_completed_rows auth body w :
  dom (timer_sessions (POST auth body w).2) = dom (timer_sessions w) ∧
  (∀ id ts, timer_sessions w !! id = Some ts → completed ts = true →
            timer_sessions (POST auth body w).2 !! id = Some ts).
Proof.
  destruct (POST_cases auth body w)
    as [[-> _]|(b & id & ts & -> & Hauth & Hsel & Hl & _)]; [done|].
  destruct (selected_Some _ _ _ _ Hsel) as (_ & Hu & Hc).
  destruct (POST_sessions_after w auth b id ts Hauth Hsel) as (r & -> & _).
  split.
  - by apply dom_insert_lookup_L.
  - intros id' ts' Hl' Hdone. rewrite lookup_insert.
    case_decide as Hid; [subst id'|done]. congruence.
Qed.



(** X4: a validated heartbeat within tolerance, whether or not it completes
    the session, stamps [last_heartbeat] with a reading of the server clock
    and counts the heartbeat, a missing count being taken as 0; the drift
    fields of the row stay as they were. *)
Theorem in_tolerance_heartbeat_is_counted w auth b id ts e :
  auth = Some (userId b) →
  selected w (userId b) = Some (id, ts) →
  elapsed b = Num e →
  timeDrift w ts e ≤ 5000 →
  ∃ ts', timer_sessions (POST auth (Some b) w).2 !! id = Some ts' ∧
         last_heartbeat ts' = Some (clock w (S (reads w))) ∧
         heartbeat_count ts' = Some (or_zero (heartbeat_count ts) + 1) ∧
         suspicious ts' = suspicious ts ∧ drift_amount ts' = drift_amount ts.
Proof.
  intros Hauth Hsel He Hd.
  pose proof (drift_within w ts _ e He Hd) as Hin.
  destruct (Z.le_gt_cases (duration ts * 1000) (serverElapsed w ts)) as [Hse|Hse].
  - rewrite (POST_completed w auth b id ts) by done. simpl.
    rewrite (proj1 (updateStreak_frame _ _)). simpl.
    eexists. rewrite lookup_insert_eq. by repeat split.
  - rewrite (POST_active w auth b id ts) by done. simpl.
    eexists. rewrite lookup_insert_eq. by repeat split.
Qed.

Lemma in_tolerance_heartbeat_is_counted_witness :
  ∃ ts', timer_sessions (POST (Some "u") (Some (beat 100000)) world_running).2
           !! "s1" = Some ts' ∧
         last_heartbeat ts' = Some 100000 ∧
         heartbeat_count ts' = Some 1 ∧
         suspicious ts' = false ∧ drift_amount ts' = None.
Proof.
  apply (in_tolerance_heartbeat_is_counted
           world_running (Some "u") (beat 100000) "s1" (fresh_session "u" 0 1500)
           100000).
  - reflexivity.
  - vm_compute. reflexivity.
  - reflexivity.
  - by vm_compute.
Defined.

(** X5: the session a heartbeat has completed is never selected again; and
    when it was the user's only uncompleted session, every later heartbeat
    of the user is answered [No active timer session] and writes nothing,
    so a replayed heartbeat cannot run [updateStreak] a second time. *)
Theorem completed_session_is_not_validated_again w auth b id ts e :
  auth = Some (userId b) →
  selected w (userId b) = Some (id, ts) →
  elapsed b = Num e →
  timeDrift w ts e ≤ 5000 →
  duration ts * 1000 ≤ serverElapsed w ts →
  (∀ id' ts', selected (POST auth (Some b) w).2 (userId b) = Some (id', ts') →
              id' ≠ id) ∧
  (sole_uncompleted w (userId b) id →
   ∀ b', userId b' = userId b →
         POST auth (Some b') (POST auth (Some b) w).2
           = (NoActiveSession, (POST auth (Some b) w).2)).
Proof.
  intros Hauth Hsel He Hd Hse.
  pose proof (drift_within w ts _ e He Hd) as Hin.
  destruct (selected_Some _ _ _ _ Hsel) as (Hl & Hu & Hc).
  destruct (POST_sessions_after w auth b id ts Hauth Hsel)
    as (r & Hafter & Hur & _ & _ & Hdone).
  assert (completed r = true) as Hr by (by apply Hdone).
  split.
  - intros id' ts' Hsel' ->.
    destruct (selected_Some _ _ _ _ Hsel') as (Hl' & _ & Hc').
    rewrite Hafter, lookup_insert_eq in Hl'. congruence.
  - intros Hsole b' Hb'. apply POST_no_selection; [congruence|].
    rewrite Hb'. apply selected_None. intros id' ts' Hl' Hu'.
    rewrite Hafter, lookup_insert in Hl'. case_decide as Hid.
    + congruence.
    + destruct (completed ts') eqn:Hc'; [done|].
      by destruct Hid; symmetry; apply (Hsole id' ts').
Qed.

Lemma completed_session_is_not_validated_again_witness :
  POST (Some "u") (Some (beat 1500000))
       (POST (Some "u") (Some (beat 1500000)) world_due).2
    = (NoActiveSession, (POST (Some "u") (Some (beat 1500000)) world_due).2).
Proof.
  refine (proj2 (completed_session_is_not_validated_again
            world_due (Some "u") (beat 1500000) "s1" (fresh_session "u" 0 1500)
            1500000 _ _ _ _ _) _ (beat 1500000) eq_refl).
  - reflexivity.
  - vm_compute. reflexivity.
  - reflexivity.
  - by vm_compute.
  - by vm_compute.
  - intros id' ts' Hl' _ _.
    destruct (decide (id' = "s1")) as [->|Hne]; [done|].
    unfold world_due in Hl'. simpl in Hl'.
    rewrite lookup_singleton_ne in Hl' by done. discriminate.
Defined.

(** X6: a session that a drifting heartbeat has flagged is completed by a
    later heartbeat within tolerance once it is due, and the completed row
    keeps the flag and the recorded drift. *)
Theorem flagged_session_completes_on_later_heartbeat w auth b1 b2 id ts e1 e2 :
  auth = Some (userId b1) →
  userId b2 = userId b1 →
  selected w (userId b1) = Some (id, ts) →
  sole_uncompleted w (userId b1) id →
  elapsed b1 = Num e1 →
  elapsed b2 = Num e2 →
  5000 < timeDrift w ts e1 →
  Z.abs (clock w (S (S (reads w))) - start_time ts - e2) ≤ 5000 →
  duration ts * 1000 ≤ clock w (S (S (reads w))) - start_time ts →
  (POST auth (Some b2) (POST auth (Some b1) w).2).1
    = Completed (clock w (S (S (reads w))) - start_time ts) ∧
  ∃ ts', timer_sessions (POST auth (Some b2) (POST auth (Some b1) w).2).2 !! id
           = Some ts' ∧
         completed ts' = true ∧ suspicious ts' = true ∧
         drift_amount ts' = Some (timeDrift w ts e1).
Proof.
  intros Hauth Hb2 Hsel Hsole He1 He2 Hd1 Hd2 Hse.
  destruct (selected_Some _ _ _ _ Hsel) as (Hl & Hu & Hc).
  rewrite (POST_drift w auth b1 id ts Hauth Hsel e1 He1 Hd1). cbn [snd].
  set (w1 := mkWorld _ _ _ _).
  assert (selected w1 (userId b2)
          = Some (id, set_drift (timeDrift w ts e1) ts)) as Hsel1.
  { rewrite Hb2. apply selected_sole; try done.
    - intros id' ts' Hl' Hu' Hc'. unfold w1 in Hl'. simpl in Hl'.
      rewrite lookup_insert in Hl'. case_decide as Hid; [done|].
      by apply (Hsole id' ts').
    - unfold w1. simpl. by rewrite lookup_insert_eq. }
  assert (drift_exceeds w1 (set_drift (timeDrift w ts e1) ts) (elapsed b2)
          = false) as Hin2 by (by apply (drift_within _ _ _ e2)).
  rewrite (POST_completed w1 auth b2 id _) by (done || congruence). cbn [fst snd].
  split; [done|].
  rewrite (proj1 (updateStreak_frame _ _)). simpl.
  eexists. rewrite lookup_insert_eq. by repeat split.
Qed.

Lemma flagged_session_completes_on_later_heartbeat_witness :
  (POST (Some "u") (Some (beat 1500000))
        (POST (Some "u") (Some (beat (-1))) world_due).2).1 = Completed 1500000.
Proof.
  refine (proj1 (flagged_session_completes_on_later_heartbeat
            world_due (Some "u") (beat (-1)) (beat 1500000) "s1"
            (fresh_session "u" 0 1500) (-1) 1500000 _ _ _ _ _ _ _ _ _)).
  - reflexivity.
  - reflexivity.
  - vm_compute. reflexivity.
  - intros id' ts' Hl' _ _.
    destruct (decide (id' = "s1")) as [->|Hne]; [done|].
    unfold world_due in Hl'. simpl in Hl'.
    rewrite lookup_singleton_ne in Hl' by done. discriminate.
  - reflexivity.
  - reflexivity.
  - by vm_compute.
  - by vm_compute.
  - by vm_compute.
Defined.

(** ** Further properties of [updateStreak] *)

(** X11: the streak rule, for a call whose two clock readings fall on the
    same UTC day [d], the completion date. Without a streak row [updateStreak] creates
    one with streaks 1 and 1 and [last_completed = d]; a row with
    [last_completed = d] is left as it is, with the whole table; a row with
    [last_completed = d - 1] gets [current_streak + 1], the maximum of that
    and [longest_streak], and [last_completed = d]; any other row gets
    [current_streak = 1] and [last_completed = d] and keeps its
    [longest_streak]. No other user's row changes. *)
Theorem updateStreak_rule w uid d :
  utc_date (clock w (reads w)) = d →
  utc_date (clock w (S (reads w))) = d →
  (streaks w !! uid = None →
   streaks (updateStreak uid w).2 !! uid = Some (mkStreak 1 1 (Some d) None)) ∧
  (∀ s, streaks w !! uid = Some s → last_completed s = Some d →
        streaks (updateStreak uid w).2 = streaks w) ∧
  (∀ s, streaks w !! uid = Some s → last_completed s = Some (d - 1) →
        streaks (updateStreak uid w).2 !! uid =
          Some (mkStreak (current_streak s + 1)
                         (Z.max (longest_streak s) (current_streak s + 1))
                         (Some d) (timezone s))) ∧
  (∀ s, streaks w !! uid = Some s →
        last_completed s ≠ Some d → last_completed s ≠ Some (d - 1) →
        streaks (updateStreak uid w).2 !! uid =
          Some (mkStreak 1 (longest_streak s) (Some d) (timezone s))) ∧
  (∀ uid', uid ≠ uid' →
        streaks (updateStreak uid w).2 !! uid' = streaks w !! uid').
Proof.
  intros Ht1 Ht2.
  pose proof (updateStreak_lookup uid w) as Hrow. simpl in Hrow.
  rewrite utc_date_day_before, Ht1, Ht2 in Hrow.
  split; [|split; [|split; [|split]]].
  - intros Hs. by rewrite Hrow, Hs.
  - intros s Hs Hlast. unfold updateStreak. run_state.
    rewrite Hs, utc_date_day_before, Ht1, Ht2, Hlast.
    rewrite bool_decide_eq_false_2 by (intros [=]; lia).
    by rewrite bool_decide_eq_true_2.
  - intros s Hs Hlast. rewrite Hrow, Hs, Hlast.
    rewrite bool_decide_eq_true_2 by done.
    by rewrite (Z.max_comm (longest_streak s)).
  - intros s Hs Hd Hy. rewrite Hrow, Hs.
    by rewrite !bool_decide_eq_false_2.
  - intros uid' Hne. by apply updateStreak_other.
Qed.

Lemma updateStreak_rule_witness :
  streaks (updateStreak "u"
             (streak_world 3 5 (Some 9) None (still (10 * 86400000 + 5)))).2
    !! "u" = Some (mkStreak 4 5 (Some 10) None).
Proof.
  refine (proj1 (proj2 (proj2 (updateStreak_rule
            (streak_world 3 5 (Some 9) None (still (10 * 86400000 + 5)))
            "u" 10 _ _))) (mkStreak 3 5 (Some 9) None) _ _).
  - reflexivity.
  - reflexivity.
  - vm_compute. reflexivity.
  - reflexivity.
Defined.

(** X7: [updateStreak] keeps [1 <= current_streak <= longest_streak]: when
    the user's row, if there is one, satisfies it before the call, the row
    there is after the call satisfies it, whatever the clock shows. *)
Theorem updateStreak_keeps_streak_bounds w uid :
  (∀ s, streaks w !! uid = Some s →
        1 ≤ current_streak s ∧ current_streak s ≤ longest_streak s) →
  ∃ s', streaks (updateStreak uid w).2 !! uid = Some s' ∧
        1 ≤ current_streak s' ∧ current_streak s' ≤ longest_streak s'.
Proof.
  intros Hinv. rewrite updateStreak_lookup.
  destruct (streaks w !! uid) as [s|].
  - destruct (Hinv s eq_refl) as [H1 H2].
    repeat case_bool_decide; eexists; (split; [done|]); simpl; lia.
  - eexists. split; [done|]. simpl. lia.
Qed.

Lemma updateStreak_keeps_streak_bounds_witness :
  ∃ s', streaks (updateStreak "u"
                   (streak_world 3 5 (Some 3) None (still (5 * 86400000)))).2
          !! "u" = Some s' ∧
        1 ≤ current_streak s' ∧ current_streak s' ≤ longest_streak s'.
Proof.
  apply (updateStreak_keeps_streak_bounds
           (streak_world 3 5 (Some 3) None (still (5 * 86400000))) "u").
  intros s Hs. vm_compute in Hs. injection Hs as <-. by vm_compute.
Defined.

(** X8: on an existing row [updateStreak] never lowers [longest_streak] and
    never changes [timezone]; [current_streak] becomes 1, grows by one, or
    the row is left as it is. *)
Theorem updateStreak_longest_never_drops w uid s :
  streaks w !! uid = Some s →
  ∃ s', streaks (updateStreak uid w).2 !! uid = Some s' ∧
        longest_streak s ≤ longest_streak s' ∧
        timezone s' = timezone s ∧
        (current_streak s' = 1 ∨ current_streak s' = current_streak s + 1 ∨ s' = s).
Proof.
  intros Hs. rewrite updateStreak_lookup, Hs.
  repeat case_bool_decide; eexists; (split; [done|]); simpl;
    repeat split; auto; lia.
Qed.

Lemma updateStreak_longest_never_drops_witness :
  ∃ s', streaks (updateStreak "u"
                   (streak_world 3 5 (Some 3) None (still (5 * 86400000)))).2
          !! "u" = Some s' ∧
        5 ≤ longest_streak s' ∧ timezone s' = None ∧
        (current_streak s' = 1 ∨ current_streak s' = 3 + 1 ∨
         s' = mkStreak 3 5 (Some 3) None).
Proof.
  apply (updateStreak_longest_never_drops
           (streak_world 3 5 (Some 3) None (still (5 * 86400000))) "u"
           (mkStreak 3 5 (Some 3) None)).
  vm_compute. reflexivity.
Defined.

(** A row whose [last_completed] is the day both readings fall on is left
    alone, with the whole table. *)
Lemma updateStreak_same_day_noop w uid s d :
  utc_date (clock w (reads w)) = d →
  utc_date (clock w (S (reads w))) = d →
  streaks w !! uid = Some s → last_completed s = Some d →
  streaks (updateStreak uid w).2 = streaks w.
Proof.
  intros Ht1 Ht2 Hs Hlast. unfold updateStreak. run_state.
  rewrite Hs, utc_date_day_before, Ht1, Ht2, Hlast.
  rewrite bool_decide_eq_false_2 by (intros [=]; lia).
  by rewrite bool_decide_eq_true_2.
Qed.

(** X9: two completions on the same day count once: when the four clock
    readings of two runs of [updateStreak] fall on one UTC day, the second
    run leaves the streaks as the first one made them. *)
Theorem updateStreak_twice_same_day w uid d :
  (∀ k, (k < 4)%nat → utc_date (clock w (reads w + k)%nat) = d) →
  streaks (updateStreak uid (updateStreak uid w).2).2
    = streaks (updateStreak uid w).2.
Proof.
  intros Hday.
  destruct (updateStreak_frame uid w) as (_ & Hclock & Hreads).
  destruct (updateStreak_last_completed uid w) as (s' & Hs' & Hlast').
  apply (updateStreak_same_day_noop _ uid s' d); try done.
  - rewrite Hclock, Hreads. rewrite <- (Hday 2%nat) by lia. f_equal. f_equal. lia.
  - rewrite Hclock, Hreads. rewrite <- (Hday 3%nat) by lia. f_equal. f_equal. lia.
  - rewrite Hlast'. unfold today_of. rewrite <- (Hday 0%nat) by lia.
    do 3 f_equal. lia.
Qed.

Lemma updateStreak_twice_same_day_witness :
  streaks (updateStreak "u"
             (updateStreak "u"
                (streak_world 3 5 (Some 4) None (still (5 * 86400000)))).2).2
    = streaks (updateStreak "u"
                 (streak_world 3 5 (Some 4) None (still (5 * 86400000)))).2.
Proof.
  apply (updateStreak_twice_same_day
           (streak_world 3 5 (Some 4) None (still (5 * 86400000))) "u" 5).
  intros k _. reflexivity.
Defined.

Lemma streak_row_eq a a' b b' c c' (tz : option string) :
  a = a' → b = b' → c = c' →
  Some (mkStreak a b (Some c) tz) = Some (mkStreak a' b' (Some c') tz).
Proof. by intros -> -> ->. Qed.

Lemma complete_daily_frame uid n w :
  clock (complete_daily uid n w).2 = clock w ∧
  reads (complete_daily uid n w).2 = (reads w + 2 * n)%nat.
Proof.
  revert w. induction n as [|n IH]; intros w; simpl.
  - split; [done|]. unfold ret. simpl. lia.
  - unfold bind. destruct (updateStreak uid w) as [[] w1] eqn:Hrun.
    destruct (updateStreak_frame uid w) as (_ & Hc & Hr). rewrite Hrun in Hc, Hr.
    simpl in Hc, Hr. destruct (IH w1) as [Hc1 Hr1].
    rewrite Hc1, Hr1, Hc, Hr. split; [done|lia].
Qed.

(** A streak that ended on day [d - 1] and is continued on each of the days
    [d], ..., [d + n]. *)
Lemma complete_daily_continues uid n : ∀ w s d,
  streaks w !! uid = Some s →
  last_completed s = Some (d - 1) →
  (∀ k, (k ≤ n)%nat →
        utc_date (clock w (reads w + 2 * k)%nat) = d + Z.of_nat k ∧
        utc_date (clock w (reads w + 2 * k + 1)%nat) = d + Z.of_nat k) →
  streaks (complete_daily uid (S n) w).2 !! uid =
    Some (mkStreak (current_streak s + Z.of_nat (S n))
                   (Z.max (current_streak s + Z.of_nat (S n)) (longest_streak s))
                   (Some (d + Z.of_nat n)) (timezone s)).
Proof.
  induction n as [|n IH]; intros w s d Hs Hlast Hdays.
  - destruct (Hdays 0%nat) as [H0 H1]; [lia|].
    rewrite Nat.mul_0_r, Nat.add_0_r in H0, H1. rewrite Nat.add_1_r in H1.
    simpl complete_daily. unfold bind.
    destruct (updateStreak uid w) as [[] w1] eqn:Hrun. unfold ret. simpl.
    pose proof (updateStreak_lookup uid w) as Hrow. simpl in Hrow.
    rewrite Hrun in Hrow. simpl in Hrow.
    rewrite Hrow, Hs, utc_date_day_before, H0, H1, Hlast.
    rewrite bool_decide_eq_true_2 by (f_equal; lia).
    apply streak_row_eq; lia.
  - change (complete_daily uid (S (S n)) w)
      with (bind (updateStreak uid) (fun _ => complete_daily uid (S n)) w).
    unfold bind at 1.
    destruct (updateStreak uid w) as [[] w1] eqn:Hrun.
    destruct (Hdays 0%nat) as [H0 H1]; [lia|].
    rewrite Nat.mul_0_r, Nat.add_0_r in H0, H1. rewrite Nat.add_1_r in H1.
    pose proof (updateStreak_lookup uid w) as Hrow. simpl in Hrow.
    destruct (updateStreak_frame uid w) as (_ & Hc & Hr).
    rewrite Hrun in Hrow, Hc, Hr. simpl in Hrow, Hc, Hr.
    rewrite Hs, utc_date_day_before, H0, H1, Hlast in Hrow.
    rewrite bool_decide_eq_true_2 in Hrow by (f_equal; lia).
    rewrite (IH w1 _ (d + 1) Hrow).
    + simpl. apply streak_row_eq; lia.
    + simpl. f_equal. lia.
    + intros k Hk. rewrite Hc, Hr.
      destruct (Hdays (S k)) as [Ha Hb]; [lia|].
      replace (S (S (reads w)) + 2 * k)%nat with (reads w + 2 * S k)%nat by lia.
      rewrite Ha, Hb. lia.
Qed.

(** X10: a user without a streak row who completes a session on each of
    [n + 1] consecutive days, [d], ..., [d + n], has afterwards
    [current_streak = longest_streak = n + 1] and [last_completed = d + n]. *)
Theorem streak_counts_consecutive_days w uid n d :
  streaks w !! uid = None →
  (∀ k, (k ≤ n)%nat →
        utc_date (clock w (reads w + 2 * k)%nat) = d + Z.of_nat k ∧
        utc_date (clock w (reads w + 2 * k + 1)%nat) = d + Z.of_nat k) →
  streaks (complete_daily uid (S n) w).2 !! uid =
    Some (mkStreak (Z.of_nat (S n)) (Z.of_nat (S n)) (Some (d + Z.of_nat n)) None).
Proof.
  intros Hnone Hdays.
  destruct (Hdays 0%nat) as [H0 H1]; [lia|].
  rewrite Nat.mul_0_r, Nat.add_0_r in H0, H1. rewrite Nat.add_1_r in H1.
  pose proof (updateStreak_lookup uid w) as Hrow. simpl in Hrow.
  rewrite Hnone, H0 in Hrow.
  destruct n as [|n].
  - simpl complete_daily. unfold bind.
    destruct (updateStreak uid w) as [[] w1]. unfold ret. simpl in *.
    rewrite Hrow. apply streak_row_eq; lia.
  - change (complete_daily uid (S (S n)) w)
      with (bind (updateStreak uid) (fun _ => complete_daily uid (S n)) w).
    unfold bind at 1.
    destruct (updateStreak_frame uid w) as (_ & Hc & Hr).
    destruct (updateStreak uid w) as [[] w1]. simpl in Hrow, Hc, Hr.
    rewrite (complete_daily_continues uid n w1 _ (d + 1) Hrow).
    + simpl. apply streak_row_eq; lia.
    + simpl. f_equal. lia.
    + intros k Hk. rewrite Hc, Hr.
      destruct (Hdays (S k)) as [Ha Hb]; [lia|].
      replace (S (S (reads w)) + 2 * k)%nat with (reads w + 2 * S k)%nat by lia.
      rewrite Ha, Hb. lia.
Qed.

Lemma streak_counts_consecutive_days_witness :
  streaks (complete_daily "u" 7 (mkWorld ∅ ∅ (noon_clock 100) 0)).2 !! "u"
    = Some (mkStreak 7 7 (Some 106) None).
Proof.
  apply (streak_counts_consecutive_days (mkWorld ∅ ∅ (noon_clock 100) 0) "u" 6 100).
  - reflexivity.
  - intros k Hk. do 7 (destruct k as [|k]; [by vm_compute|]). lia.
Defined.

(** ** The service worker *)

Ltac run_sw :=
  unfold Sw.on_message, Sw.startHeartbeat, Sw.stopHeartbeat, Sw.setInterval,
         Sw.sendHeartbeat, Sw.fetch_heartbeat, Sw.postMessage, Sw.lift,
         Sw.on_sync, Client.saveTimerState, Client.clearTimerState,
         Client.getTimerState, Client.truthy, Client.member,
         Client.with_store, Client.Date_now, bind, ret; simpl.

(** What [sendHeartbeat] does in every state of the worker: the request it
    gets from [getTimerState] is an object, so the early return is not
    taken; it reads the clock twice and hands one body to [fetch], with
    [elapsed] the [NaN] of [Date.now() - undefined] and [sessionId] the
    missing member [id]. *)
Lemma sendHeartbeat_run u rt :
  Sw.sendHeartbeat u rt =
    (tt, Sw.mkRuntime
           (Client.mkWorker (Client.activeTimers (Sw.worker rt))
              (Client.clock (Sw.worker rt))
              (S (S (Client.reads (Sw.worker rt))))
              (Client.online (Sw.worker rt)) (Client.posted (Sw.worker rt)))
           (Sw.heartbeatInterval rt) (Sw.intervals rt) (Sw.next_handle rt)
           (Sw.beats rt ++
              [Sw.mkBeat u undefined NaN
                 (Client.clock (Sw.worker rt) (S (Client.reads (Sw.worker rt))))])).
Proof. reflexivity. Qed.

(** X12: [START_TIMER] stores the timer it brings under the key [current],
    in place of whatever was stored there, stamped with the device clock;
    [STOP_TIMER] deletes what is stored under that key and unsets
    [heartbeatInterval]. The stop does not silence the worker: a
    [HEARTBEAT] message that follows it still hands one body to [fetch],
    with nothing stored. *)
Theorem start_stores_and_stop_deletes rt data u :
  Client.activeTimers (Sw.worker (Sw.on_message (Sw.START_TIMER data) rt).2)
    = <["current" :=
          Client.mkTimerRecord
            (Client.data_startTime data) (Client.data_duration data)
            (Client.data_serverTime data) (Client.data_userId data)
            (Client.clock (Sw.worker rt) (Client.reads (Sw.worker rt)))]>
        (Client.activeTimers (Sw.worker rt)) ∧
  Client.activeTimers (Sw.worker (Sw.on_message Sw.STOP_TIMER rt).2)
    = delete "current" (Client.activeTimers (Sw.worker rt)) ∧
  Sw.heartbeatInterval (Sw.on_message Sw.STOP_TIMER rt).2 = None ∧
  Sw.beats (Sw.on_message (Sw.HEARTBEAT u)
              (Sw.on_message Sw.STOP_TIMER rt).2).2
    = Sw.beats rt ++
        [Sw.mkBeat u undefined NaN
           (Client.clock (Sw.worker rt) (S (Client.reads (Sw.worker rt))))].
Proof.
  split; [|split; [|split]].
  - by run_sw.
  - run_sw. by destruct (Sw.heartbeatInterval rt).
  - run_sw. by destruct (Sw.heartbeatInterval rt).
  - run_sw. by destruct (Sw.heartbeatInterval rt).
Qed.

(** X13: [sendHeartbeat] posts in every state of the worker, with or
    without a stored timer: it hands exactly one body to [fetch], carrying
    the [userId] it was asked for, no [sessionId], [NaN] for [elapsed]
    whatever the stored [startTime] and the clock are, and the second
    reading of the clock as [clientTime]. The store, the intervals and
    [heartbeatInterval] are not touched. *)
Theorem heartbeat_is_posted_without_the_stored_timer rt u :
  Sw.beats (Sw.sendHeartbeat u rt).2 =
    Sw.beats rt ++
      [Sw.mkBeat u undefined NaN
         (Client.clock (Sw.worker rt) (S (Client.reads (Sw.worker rt))))] ∧
  Client.activeTimers (Sw.worker (Sw.sendHeartbeat u rt).2)
    = Client.activeTimers (Sw.worker rt) ∧
  Sw.intervals (Sw.sendHeartbeat u rt).2 = Sw.intervals rt ∧
  Sw.heartbeatInterval (Sw.sendHeartbeat u rt).2 = Sw.heartbeatInterval rt.
Proof. by rewrite sendHeartbeat_run. Qed.

Lemma START_TIMER_intervals rt data :
  let rt' := (Sw.on_message (Sw.START_TIMER data) rt).2 in
  Sw.intervals rt' = <[Sw.next_handle rt := Client.data_userId data]> (Sw.intervals rt) ∧
  Sw.heartbeatInterval rt' = Some (Sw.next_handle rt) ∧
  Sw.next_handle rt' = Pos.succ (Sw.next_handle rt).
Proof. by run_sw. Qed.

Lemma STOP_TIMER_intervals rt :
  let rt' := (Sw.on_message Sw.STOP_TIMER rt).2 in
  Sw.intervals rt' =
    match Sw.heartbeatInterval rt with
    | Some h => delete h (Sw.intervals rt)
    | None => Sw.intervals rt
    end ∧
  Sw.heartbeatInterval rt' = None ∧ Sw.next_handle rt' = Sw.next_handle rt.
Proof. run_sw. by destruct (Sw.heartbeatInterval rt). Qed.

Lemma on_messages_cons m ms rt :
  (Sw.on_messages (m :: ms) rt).2 = (Sw.on_messages ms (Sw.on_message m rt).2).2.
Proof. simpl. unfold bind. by destruct (Sw.on_message m rt). Qed.

Lemma on_messages_nil rt : (Sw.on_messages [] rt).2 = rt.
Proof. reflexivity. Qed.

(** X14: [STOP_TIMER] clears only the interval of the latest
    [START_TIMER]. After a start and a stop the intervals are as before;
    after two starts and a stop the interval of the first start is still
    set. *)
Theorem stop_clears_only_the_latest_interval rt d1 d2 :
  handles_given rt →
  Sw.intervals (Sw.on_messages [Sw.START_TIMER d1; Sw.STOP_TIMER] rt).2
    = Sw.intervals rt ∧
  Sw.intervals
    (Sw.on_messages [Sw.START_TIMER d1; Sw.START_TIMER d2; Sw.STOP_TIMER] rt).2
    = <[Sw.next_handle rt := Client.data_userId d1]> (Sw.intervals rt).
Proof.
  intros Hgiven.
  assert (∀ h, (Sw.next_handle rt ≤ h)%positive → Sw.intervals rt !! h = None)
    as Hfresh.
  { intros h Hh. destruct (Sw.intervals rt !! h) eqn:Hl; [|done].
    specialize (Hgiven h (mk_is_Some _ _ Hl)). lia. }
  rewrite !on_messages_cons, !on_messages_nil.
  destruct (START_TIMER_intervals rt d1) as (Hi1 & Hh1 & Hn1).
  set (rt1 := (Sw.on_message (Sw.START_TIMER d1) rt).2) in *.
  split.
  - destruct (STOP_TIMER_intervals rt1) as (Hi2 & _).
    rewrite Hi2, Hh1, Hi1.
    apply delete_insert_id. apply Hfresh. lia.
  - destruct (START_TIMER_intervals rt1 d2) as (Hi2 & Hh2 & _).
    set (rt2 := (Sw.on_message (Sw.START_TIMER d2) rt1).2) in *.
    destruct (STOP_TIMER_intervals rt2) as (Hi3 & _).
    rewrite Hi3, Hh2, Hi2, Hn1, Hi1.
    apply delete_insert_id. rewrite lookup_insert_ne by lia.
    apply Hfresh. lia.
Qed.

Lemma stop_clears_only_the_latest_interval_witness :
  Sw.intervals
    (Sw.on_messages [Sw.START_TIMER (Client.startTimer 25 0 0);
                     Sw.START_TIMER (Client.startTimer 50 0 0);
                     Sw.STOP_TIMER] (runtime_at 0)).2
    = <[1%positive := "demo-user"]> ∅.
Proof.
  refine (proj2 (stop_clears_only_the_latest_interval (runtime_at 0)
                   (Client.startTimer 25 0 0) (Client.startTimer 50 0 0) _)).
  intros h [x Hx]. simpl in Hx. by rewrite lookup_empty in Hx.
Defined.

(** X15: a second [START_TIMER] does not clear the interval of the first.
    When that interval fires afterwards it posts a heartbeat under the
    [userId] of the first start; like every heartbeat of the worker it
    carries [NaN] for [elapsed] and no [sessionId]. *)
Theorem earlier_interval_still_beats rt d1 d2 :
  let rt2 := (Sw.on_messages [Sw.START_TIMER d1; Sw.START_TIMER d2] rt).2 in
  Sw.intervals rt2 !! Sw.next_handle rt = Some (Client.data_userId d1) ∧
  Sw.beats (Sw.fire (Sw.next_handle rt) rt2).2 =
    Sw.beats rt2 ++
      [Sw.mkBeat (Client.data_userId d1) undefined NaN
         (Client.clock (Sw.worker rt2) (S (Client.reads (Sw.worker rt2))))].
Proof.
  intros rt2. unfold rt2. rewrite !on_messages_cons, !on_messages_nil.
  destruct (START_TIMER_intervals rt d1) as (Hi1 & _ & Hn1).
  set (rt1 := (Sw.on_message (Sw.START_TIMER d1) rt).2) in *.
  destruct (START_TIMER_intervals rt1 d2) as (Hi2 & _ & _).
  set (rt3 := (Sw.on_message (Sw.START_TIMER d2) rt1).2) in *.
  assert (Sw.intervals rt3 !! Sw.next_handle rt = Some (Client.data_userId d1))
    as Hl.
  { rewrite Hi2, Hn1, Hi1. rewrite lookup_insert_ne by lia.
    by rewrite lookup_insert_eq. }
  split; [done|].
  unfold Sw.fire. rewrite Hl. by rewrite sendHeartbeat_run.
Qed.

(** ** The completion sync *)

(** X16: a completion sync never posts a completion and never changes the
    stored timers, whatever is stored, whatever the clock shows and
    whether or not the device is online: a timer that ran out while the
    device was offline stays stored and is not reported by the sync. The
    ['sync'] listener, whatever its tag, likewise posts no completion and
    no heartbeat and leaves the store and the intervals as they are. *)
Theorem completion_sync_never_posts (w : Client.Worker) rt tag :
  Client.posted (Client.syncTimerCompletion w).2 = Client.posted w ∧
  Client.activeTimers (Client.syncTimerCompletion w).2 = Client.activeTimers w ∧
  Client.posted (Sw.worker (Sw.on_sync tag rt).2) = Client.posted (Sw.worker rt) ∧
  Client.activeTimers (Sw.worker (Sw.on_sync tag rt).2)
    = Client.activeTimers (Sw.worker rt) ∧
  Sw.beats (Sw.on_sync tag rt).2 = Sw.beats rt ∧
  Sw.intervals (Sw.on_sync tag rt).2 = Sw.intervals rt.
Proof.
  rewrite syncTimerCompletion_run. split; [done|]. split; [done|].
  unfold Sw.on_sync. case_bool_decide; [|done].
  unfold Sw.lift. by rewrite syncTimerCompletion_run.
Qed.

(** ** The timer page *)

(** X17: for a saved timer whose duration is a whole number of seconds: a
    page opened while it is running, with a device clock that has not gone
    back behind the saved start, shows the seconds that are left, between
    1 and the saved duration, and runs; when the saved duration has
    passed, it shows the idle page and no completion. *)
Theorem restore_shows_remaining_seconds now st :
  Page.s_isRunning st = true →
  Page.s_startTime st ≤ now →
  let elapsed := (now - Page.s_startTime st) / 1000 in
  let p := Page.restore now (Page.initial (Some st)) in
  (elapsed < Page.s_duration st →
   Page.timeLeft p = Page.s_duration st - elapsed ∧
   1 ≤ Page.timeLeft p ≤ Page.s_duration st ∧
   Page.isRunning p = true) ∧
  (Page.s_duration st ≤ elapsed → p = Page.initial (Some st)).
Proof.
  intros Hrun Hnow elapsed p.
  assert (0 ≤ elapsed) as Hpos by (apply Z.div_pos; lia).
  unfold p, Page.restore. simpl. fold elapsed. rewrite Hrun, andb_true_r.
  split; intros Hel.
  - rewrite (proj2 (Z.ltb_lt _ _)) by lia. simpl. lia.
  - by rewrite (proj2 (Z.ltb_ge _ _)) by lia.
Qed.

Lemma restore_shows_remaining_seconds_witness :
  Page.timeLeft (Page.restore 61500 (Page.initial (Some (Page.mkSaved 0 1500 true))))
    = 1439.
Proof.
  destruct (restore_shows_remaining_seconds 61500 (Page.mkSaved 0 1500 true))
    as [H _]; [reflexivity | by vm_compute |].
  destruct H as (-> & _); [by vm_compute | reflexivity].
Defined.

(** X18: a timer started for a whole number [m >= 1] of minutes and
    reloaded before it has run out comes back with [m] minutes, running,
    and with the seconds left counted from the start. *)
Theorem started_timer_survives_reload ready t1 t2 t3 now p :
  1 ≤ Page.duration p →
  t3 ≤ now < t3 + Page.duration p * 60000 →
  let p' := Page.reload now (Page.startTimer ready t1 t2 t3 p).1 in
  Page.duration p' = Page.duration p ∧
  Page.isRunning p' = true ∧
  Page.timeLeft p' = Page.duration p * 60 - (now - t3) / 1000 ∧
  1 ≤ Page.timeLeft p'.
Proof.
  intros Hm [Hlo Hhi] p'.
  assert (0 ≤ (now - t3) / 1000) as Hpos by (apply Z.div_pos; lia).
  assert ((now - t3) / 1000 < Page.duration p * 60) as Hlt
    by (apply Z.div_lt_upper_bound; lia).
  unfold p', Page.reload, Page.restore, Page.startTimer. simpl.
  rewrite (proj2 (Z.ltb_lt _ _)) by lia. simpl.
  repeat split; try lia.
  unfold Page.ceil_div60.
  replace (- (Page.duration p * 60)) with ((- Page.duration p) * 60) by lia.
  rewrite Z.div_mul by lia. lia.
Qed.

Lemma started_timer_survives_reload_witness :
  Page.timeLeft
    (Page.reload 61500 (Page.startTimer true 0 0 0 (Page.initial None)).1) = 1439.
Proof.
  destruct (started_timer_survives_reload true 0 0 0 61500 (Page.initial None))
    as (_ & _ & -> & _); [by vm_compute | by vm_compute | reflexivity].
Defined.

Lemma second_counts_down p :
  Page.isRunning p = true → 1 < Page.timeLeft p →
  Page.second p = Page.mkPage (Page.duration p) (Page.timeLeft p - 1) true
                    (Page.completions p) (Page.timerState p).
Proof.
  intros Hrun Hleft. unfold Page.second. rewrite Hrun. simpl.
  rewrite (proj2 (Z.ltb_lt _ _)) by lia.
  by rewrite (proj2 (Z.leb_gt _ _)) by lia.
Qed.

Lemma second_when_stopped p k :
  Page.isRunning p = false → Nat.iter k Page.second p = p.
Proof.
  intros Hstop. induction k as [|k IH]; simpl; [done|].
  rewrite IH. unfold Page.second. by rewrite Hstop.
Qed.

Lemma iter_second_succ k p :
  Nat.iter (S k) Page.second p = Nat.iter k Page.second (Page.second p).
Proof. induction k as [|k IH]; [done|]. simpl in *. by rewrite IH. Qed.

(** X19: a running countdown with [n >= 1] seconds left shows [n - k]
    seconds after [k < n] seconds and is still running; after [n] seconds,
    and ever after, it shows 0, has stopped, and [handleComplete] has run
    exactly once. *)
Theorem countdown_completes_once n : ∀ p k,
  Page.isRunning p = true →
  Page.timeLeft p = Z.of_nat (S n) →
  let p' := Nat.iter k Page.second p in
  ((k ≤ n)%nat →
   Page.timeLeft p' = Z.of_nat (S n) - Z.of_nat k ∧
   Page.isRunning p' = true ∧ Page.completions p' = Page.completions p) ∧
  ((n < k)%nat →
   Page.timeLeft p' = 0 ∧ Page.isRunning p' = false ∧
   Page.completions p' = S (Page.completions p)).
Proof.
  induction n as [|n IH]; intros p k Hrun Hleft p'.
  - destruct k as [|k].
    + split; [|lia]. intros _. unfold p'. simpl. split; [lia|done].
    + split; [lia|]. intros _. unfold p'. rewrite iter_second_succ.
      assert (Page.second p = Page.mkPage (Page.duration p) 0 false
                (S (Page.completions p)) (Page.timerState p)) as ->.
      { unfold Page.second. by rewrite Hrun, Hleft. }
      by rewrite second_when_stopped.
  - destruct k as [|k].
    + split; [|lia]. intros _. unfold p'. simpl. split; [lia|done].
    + unfold p'. rewrite iter_second_succ.
      rewrite second_counts_down by (done || lia).
      set (q := Page.mkPage _ _ _ _ _).
      destruct (IH q k eq_refl) as [Hle Hgt].
      { unfold q. simpl. lia. }
      split; intros Hk.
      * destruct Hle as (-> & -> & ->); [lia|]. simpl. split; [lia|done].
      * destruct Hgt as (-> & -> & ->); [lia|]. done.
Qed.

Lemma countdown_completes_once_witness :
  Page.completions
    (Nat.iter 200 Page.second (Page.mkPage 1 60 true 0 None)) = 1%nat.
Proof.
  destruct (countdown_completes_once 59 (Page.mkPage 1 60 true 0 None) 200)
    as [_ H]; [reflexivity | reflexivity |].
  destruct H as (_ & _ & ->); [lia | reflexivity].
Defined.

(** X20: a timer started with a duration of 0 or fewer minutes never counts
    down and never completes: the page stays in the running state with the
    same time left however many seconds pass. *)
Theorem nonpositive_duration_never_completes ready t1 t2 t3 p k :
  Page.duration p ≤ 0 →
  Nat.iter k Page.second (Page.startTimer ready t1 t2 t3 p).1
    = (Page.startTimer ready t1 t2 t3 p).1 ∧
  Page.isRunning (Page.startTimer ready t1 t2 t3 p).1 = true.
Proof.
  intros Hdur. split; [|done].
  induction k as [|k IH]; simpl; [done|].
  simpl in IH. rewrite IH. unfold Page.second. simpl.
  by rewrite (proj2 (Z.ltb_ge _ _)) by lia.
Qed.

Lemma nonpositive_duration_never_completes_witness :
  Nat.iter 3600 Page.second
    (Page.startTimer true 0 0 0 (Page.mkPage 0 0 false 0 None)).1
    = (Page.startTimer true 0 0 0 (Page.mkPage 0 0 false 0 None)).1.
Proof.
  refine (proj1 (nonpositive_duration_never_completes
                   true 0 0 0 (Page.mkPage 0 0 false 0 None) 3600 _)).
  by vm_compute.
Defined.

(** X21: after Pause and Resume the countdown runs on the page alone: the
    saved state is gone, so a reload shows the idle page, and the worker,
    having handled the page's message, holds no timer under [current] and
    has [heartbeatInterval] unset. *)
Theorem paused_and_resumed_timer_is_not_persisted p rt now :
  let p' := Page.resume (Page.pauseTimer true p).1 in
  let rt' := (Sw.on_messages (Page.pauseTimer true p).2 rt).2 in
  Page.isRunning p' = true ∧ Page.timeLeft p' = Page.timeLeft p ∧
  Page.reload now p' = Page.initial None ∧
  Client.activeTimers (Sw.worker rt') !! "current" = None ∧
  Sw.heartbeatInterval rt' = None.
Proof.
  intros p' rt'.
  assert (rt' = (Sw.on_message Sw.STOP_TIMER rt).2) as ->.
  { unfold rt'. change (Page.pauseTimer true p).2 with [Sw.STOP_TIMER].
    by rewrite on_messages_cons, on_messages_nil. }
  repeat split.
  - run_sw. destruct (Sw.heartbeatInterval rt); simpl; apply lookup_delete_eq.
  - run_sw. by destruct (Sw.heartbeatInterval rt).
Qed.

(** ** The route middleware *)

Lemma prefix_cons_inv a s c p :
  String.prefix (String a s) (String c p) = true → a = c ∧ String.prefix s p = true.
Proof. simpl. by destruct (Ascii.ascii_dec a c). Qed.

Lemma prefix_nil_inv a s : String.prefix (String a s) EmptyString = true → False.
Proof. done. Qed.

(** X22: a visitor without a session is sent to the login page, with the
    path to come back to, exactly on the paths that begin with [/timer],
    [/streaks], [/dashboard] or [/settings]. Every other path goes on
    without any header, and that includes the premium paths under
    [/analytics] and [/export]. *)
Theorem visitor_is_stopped_on_protected_prefixes_only pathname subscription_of :
  (Middleware.middleware pathname None subscription_of
     = Middleware.RedirectLogin pathname ↔
   ∃ route, route ∈ Middleware.protectedRoutes ∧
            String.prefix route pathname = true) ∧
  (Middleware.middleware pathname None subscription_of
     ≠ Middleware.RedirectLogin pathname →
   Middleware.middleware pathname None subscription_of = Middleware.Next []) ∧
  (String.prefix "/analytics" pathname = true ∨
   String.prefix "/export" pathname = true →
   Middleware.middleware pathname None subscription_of = Middleware.Next []).
Proof.
  unfold Middleware.middleware, Middleware.matches.
  split; [|split].
  - destruct (existsb _ Middleware.protectedRoutes) eqn:He.
    + split; [intros _|done].
      apply existsb_exists in He as (route & Hin & Hp).
      exists route. split; [by apply list_elem_of_In|done].
    + split; [done|]. intros (route & Hin & Hp).
      apply list_elem_of_In in Hin.
      assert (existsb (λ route, String.prefix route pathname)
                Middleware.protectedRoutes = true) as Ht
        by (apply existsb_exists; eauto).
      congruence.
  - by destruct (existsb _ Middleware.protectedRoutes).
  - intros Hp.
    assert (existsb (λ route, String.prefix route pathname)
              Middleware.protectedRoutes = false) as ->; [|done].
    destruct pathname as [|c1 [|c2 rest]].
    { by destruct Hp as [Hp|Hp]; apply prefix_nil_inv in Hp. }
    { by destruct Hp as [Hp|Hp]; apply prefix_cons_inv in Hp as [_ Hp];
        apply prefix_nil_inv in Hp. }
    by destruct Hp as [Hp|Hp];
      apply prefix_cons_inv in Hp as [<- Hp];
      apply prefix_cons_inv in Hp as [<- _].
Qed.

(** X23: a signed-in user reaches a premium path (one that begins with
    [/timer/custom], [/analytics] or [/export]) exactly when a subscription
    row is found whose status is [active] and whose tier is not [free];
    otherwise the user is sent to [/upgrade]. On every other path a
    signed-in user goes on, with the user id in the headers. *)
Theorem premium_paths_need_active_paid_subscription pathname s subscription_of :
  let out := Middleware.middleware pathname (Some s) subscription_of in
  let go_on := Middleware.Next
                 [("x-user-id", Middleware.user_id s);
                  ("x-user-email", default "" (Middleware.user_email s))] in
  (Middleware.matches Middleware.premiumRoutes pathname = false → out = go_on) ∧
  (Middleware.matches Middleware.premiumRoutes pathname = true →
   (out = go_on ↔
    ∃ sub, subscription_of (Middleware.user_id s) = Some sub ∧
           Middleware.status sub = "active" ∧ Middleware.tier sub ≠ "free") ∧
   (out ≠ go_on → out = Middleware.RedirectUpgrade)).
Proof.
  intros out go_on. unfold out, go_on, Middleware.middleware.
  split; intros ->; [done|].
  destruct (subscription_of (Middleware.user_id s)) as [sub|].
  - repeat case_bool_decide; simpl; split; try done.
    + split; [done|]. intros (sub' & [= <-] & Hs & Ht). done.
    + split; [intros _; by exists sub|done].
    + split; [done|]. intros (sub' & [= <-] & Hs & Ht). done.
    + split; [done|]. intros (sub' & [= <-] & Hs & Ht). done.
  - split; [|done]. split; [done|]. by intros (sub' & ? & _).
Qed.

(** ** The daily mantra *)

Lemma length_substring_0 m : ∀ s,
  (m ≤ String.length s)%nat → String.length (String.substring 0 m s) = m.
Proof.
  induction m as [|m IH]; intros [|c s]; simpl; try done; try lia.
  intros Hle. f_equal. apply IH. lia.
Qed.

Lemma string_length_append s1 s2 :
  String.length (String.append s1 s2) = (String.length s1 + String.length s2)%nat.
Proof. induction s1 as [|c s1 IH]; simpl; [done|]. by rewrite IH. Qed.

(** X24: the mantra that is returned and cached is never empty and never
    longer than 80 code units: a text of up to 80 is kept as it is, a longer
    one is cut to its first 77 code units followed by three dots, and an
    absent or blank completion gives the fallback entry unchanged. *)
Theorem returned_mantra_fits trim content fallback :
  fallback ∈ Mantra.FALLBACK_MANTRAS →
  let mantra := Mantra.mantra_of trim content fallback in
  let final := Mantra.finalMantra mantra in
  final ≠ "" ∧ (String.length final ≤ 80)%nat ∧
  ((String.length mantra ≤ 80)%nat → final = mantra) ∧
  ((80 < String.length mantra)%nat →
   final = String.append (String.substring 0 77 mantra) "..." ∧
   String.length final = 80%nat) ∧
  (content = None ∨ (∃ c, content = Some c ∧ trim c = "") → final = fallback).
Proof.
  intros Hfb mantra final.
  assert (fallback ≠ "" ∧ (String.length fallback ≤ 80)%nat) as [Hfb1 Hfb2].
  { unfold Mantra.FALLBACK_MANTRAS in Hfb.
    repeat (apply elem_of_cons in Hfb as [->|Hfb]; [split; [done|simpl; lia]|]).
    by apply elem_of_nil in Hfb. }
  assert (mantra ≠ "") as Hne.
  { unfold mantra, Mantra.mantra_of. destruct content as [c|]; [|done].
    by case_bool_decide. }
  unfold final, Mantra.finalMantra.
  destruct (Nat.leb_spec (String.length mantra) 80) as [Hle|Hgt].
  - repeat split; try done; try lia.
    intros [->|(c & -> & Hc)]; unfold mantra, Mantra.mantra_of; [done|].
    by rewrite bool_decide_eq_true_2.
  - assert (String.length (String.append (String.substring 0 77 mantra) "...")
            = 80%nat) as Hlen.
    { rewrite string_length_append, length_substring_0 by lia. done. }
    repeat split; try done; try lia.
    + intros Heq. rewrite Heq in Hlen. done.
    + intros [->|(c & -> & Hc)]; exfalso; revert Hgt;
        unfold mantra, Mantra.mantra_of; [lia|].
      rewrite bool_decide_eq_true_2 by done. lia.
Qed.

Lemma returned_mantra_fits_witness :
  Mantra.finalMantra (Mantra.mantra_of (fun s => s) (Some "")
                        "Your only limit is your mind.")
    = "Your only limit is your mind.".
Proof.
  refine (proj2 (proj2 (proj2 (proj2 (returned_mantra_fits (fun s => s) (Some "")
            "Your only limit is your mind." _)))) _).
  - unfold Mantra.FALLBACK_MANTRAS. set_solver.
  - right. by exists "".
Defined.

(** ** The Stripe webhook's handlers *)

Lemma lookup_configure p t o k :
  Stripe.configure p t o !! k =
    if configured p k && negb (bool_decide (k = "__proto__")) then Some t
    else o !! k.
Proof.
  unfold Stripe.configure, Stripe.set_property, configured.
  destruct p as [q|]; [|by rewrite bool_decide_eq_false_2 by (by intros [? _])].
  destruct (decide (q = "")) as [->|Hq].
  { rewrite bool_decide_eq_true_2 by done.
    by rewrite (bool_decide_eq_false_2 (Some "" = Some k ∧ k ≠ ""))
      by (intros [[= <-] ?]; done). }
  rewrite (bool_decide_eq_false_2 (q = "")) by done.
  destruct (decide (q = "__proto__")) as [->|Hp].
  { rewrite bool_decide_eq_true_2 by done.
    destruct (decide (k = "__proto__")) as [->|Hk].
    - rewrite (bool_decide_eq_true_2 ("__proto__" = "__proto__")) by done.
      by rewrite andb_false_r.
    - by rewrite (bool_decide_eq_false_2 (Some "__proto__" = Some k ∧ k ≠ ""))
        by (intros [[= <-] ?]; done). }
  rewrite (bool_decide_eq_false_2 (q = "__proto__")) by done.
  destruct (decide (q = k)) as [->|Hk].
  - rewrite lookup_insert_eq.
    rewrite (bool_decide_eq_true_2 (Some k = Some k ∧ k ≠ "")) by done.
    by rewrite (bool_decide_eq_false_2 (k = "__proto__")) by done.
  - rewrite lookup_insert_ne by done.
    by rewrite (bool_decide_eq_false_2 (Some q = Some k ∧ k ≠ ""))
      by (intros [[= ?] ?]; done).
Qed.

(** X25: for a price id that is not a property name of [Object.prototype],
    the tier is the one whose environment variable is set to that id, the
    later assignment winning when several are ([premium], then [pro], then
    [basic]), and [free] when none is. A price id that is such a property
    name and is configured for no tier does not give a tier at all, but the
    inherited member. *)
Theorem tier_of_price_id env priceId :
  (priceId ∉ Stripe.object_prototype_keys →
   Stripe.getTierFromPriceId env priceId =
     Stripe.Str
       (if configured (Stripe.STRIPE_PRICE_PREMIUM env) priceId then "premium"
        else if configured (Stripe.STRIPE_PRICE_PRO env) priceId then "pro"
        else if configured (Stripe.STRIPE_PRICE_BASIC env) priceId then "basic"
        else "free")) ∧
  (priceId ∈ Stripe.object_prototype_keys →
   configured (Stripe.STRIPE_PRICE_PREMIUM env) priceId = false →
   configured (Stripe.STRIPE_PRICE_PRO env) priceId = false →
   configured (Stripe.STRIPE_PRICE_BASIC env) priceId = false →
   Stripe.getTierFromPriceId env priceId = Stripe.Inherited priceId).
Proof.
  unfold Stripe.getTierFromPriceId, Stripe.get_property.
  rewrite !lookup_configure, lookup_empty.
  split.
  - intros Hkey.
    assert (priceId ≠ "__proto__") as Hproto.
    { intros ->. apply Hkey. unfold Stripe.object_prototype_keys. set_solver. }
    rewrite (bool_decide_eq_false_2 _ Hproto). simpl. rewrite !andb_true_r.
    destruct (configured (Stripe.STRIPE_PRICE_PREMIUM env) priceId); [done|].
    destruct (configured (Stripe.STRIPE_PRICE_PRO env) priceId); [done|].
    destruct (configured (Stripe.STRIPE_PRICE_BASIC env) priceId); [done|].
    by rewrite bool_decide_eq_false_2.
  - intros Hkey -> -> ->. simpl. by rewrite bool_decide_eq_true_2.
Qed.

Lemma user_of_customer_run c w :
  Stripe.user_of_customer c w = ((Stripe.user_of_customer c w).1, w).
Proof. reflexivity. Qed.

Lemma customer_rows c w r :
  r ∈ filter (Stripe.has_customer c) (map_to_list (Stripe.users w)) ↔
  Stripe.users w !! r.1 = Some r.2 ∧ Stripe.stripe_customer_id r.2 = Some c.
Proof.
  rewrite list_elem_of_filter. destruct r as [uid u]. simpl.
  rewrite elem_of_map_to_list. unfold Stripe.has_customer. simpl. tauto.
Qed.

Lemma customer_rows_NoDup c w :
  NoDup (filter (Stripe.has_customer c) (map_to_list (Stripe.users w))).
Proof. apply NoDup_filter, NoDup_map_to_list. Qed.

(** The lookup finds the user exactly when one user has the customer. *)
Lemma user_of_customer_sole c w uid :
  sole_customer w c uid → (Stripe.user_of_customer c w).1 = Some uid.
Proof.
  intros [(u & Hu & Hc) Honly]. unfold Stripe.user_of_customer. simpl.
  pose proof (customer_rows_NoDup c w) as Hnd.
  assert ((uid, u) ∈ filter (Stripe.has_customer c) (map_to_list (Stripe.users w)))
    as Hin by (by apply customer_rows).
  assert (∀ r, r ∈ filter (Stripe.has_customer c) (map_to_list (Stripe.users w)) →
               r = (uid, u)) as Hall.
  { intros [uid' u'] [Hl Hc']%customer_rows. simpl in *.
    pose proof (Honly uid' u' Hl Hc') as ->. congruence. }
  destruct (filter _ _) as [|r1 [|r2 l]].
  - by apply elem_of_nil in Hin.
  - by rewrite (Hall r1) by left.
  - rewrite (Hall r1) in Hnd by left.
    rewrite (Hall r2) in Hnd by (right; left).
    apply NoDup_cons in Hnd as [Hnot _]. destruct Hnot. left.
Qed.

Lemma user_of_customer_unknown c w :
  (∀ uid u, Stripe.users w !! uid = Some u → Stripe.stripe_customer_id u ≠ Some c) →
  (Stripe.user_of_customer c w).1 = None.
Proof.
  intros Hnone. unfold Stripe.user_of_customer. simpl.
  destruct (filter _ _) as [|r l] eqn:Hf; [done|].
  assert (r ∈ filter (Stripe.has_customer c) (map_to_list (Stripe.users w)))
    as [Hl Hc]%customer_rows by (rewrite Hf; left).
  by destruct (Hnone _ _ Hl).
Qed.

Lemma user_of_customer_ambiguous c w uid1 uid2 u1 u2 :
  uid1 ≠ uid2 →
  Stripe.users w !! uid1 = Some u1 → Stripe.stripe_customer_id u1 = Some c →
  Stripe.users w !! uid2 = Some u2 → Stripe.stripe_customer_id u2 = Some c →
  (Stripe.user_of_customer c w).1 = None.
Proof.
  intros Hne Hl1 Hc1 Hl2 Hc2. unfold Stripe.user_of_customer. simpl.
  assert ((uid1, u1) ∈ filter (Stripe.has_customer c) (map_to_list (Stripe.users w)))
    as Hin1 by (by apply customer_rows).
  assert ((uid2, u2) ∈ filter (Stripe.has_customer c) (map_to_list (Stripe.users w)))
    as Hin2 by (by apply customer_rows).
  destruct (filter _ _) as [|r1 [|r2 l]]; [done| |done].
  apply list_elem_of_singleton in Hin1, Hin2. congruence.
Qed.

Ltac run_stripe :=
  unfold Stripe.handlePaymentSuccess, Stripe.handlePaymentFailure,
         Stripe.handleSubscriptionCancellation, bind;
  rewrite user_of_customer_run.

(** X26: an event for a customer that no user has, or that more than one
    user has, is dropped: a succeeded payment, a failed payment and a
    cancellation each leave the users, the subscriptions and the payment
    log as they were. *)
Theorem event_for_unmatched_customer_is_dropped w invoice :
  ((∀ uid u, Stripe.users w !! uid = Some u →
             Stripe.stripe_customer_id u ≠ Some (Stripe.customer invoice)) ∨
   (∃ uid1 uid2 u1 u2, uid1 ≠ uid2 ∧
      Stripe.users w !! uid1 = Some u1 ∧
      Stripe.stripe_customer_id u1 = Some (Stripe.customer invoice) ∧
      Stripe.users w !! uid2 = Some u2 ∧
      Stripe.stripe_customer_id u2 = Some (Stripe.customer invoice))) →
  Stripe.handlePaymentSuccess invoice w = (tt, w) ∧
  Stripe.handlePaymentFailure invoice w = (tt, w) ∧
  Stripe.handleSubscriptionCancellation (Stripe.customer invoice) w = (tt, w).
Proof.
  intros Hunmatched.
  assert ((Stripe.user_of_customer (Stripe.customer invoice) w).1 = None) as Hnone.
  { destruct Hunmatched as [Hnone|(uid1 & uid2 & u1 & u2 & Hne & H1 & H2 & H3 & H4)].
    - by apply user_of_customer_unknown.
    - by apply (user_of_customer_ambiguous _ _ uid1 uid2 u1 u2). }
  repeat split; run_stripe; by rewrite Hnone.
Qed.

Lemma event_for_unmatched_customer_is_dropped_witness :
  Stripe.handlePaymentFailure (Stripe.mkInvoice "in_1" "cus_9" 0 900 "usd")
    billing_world = (tt, billing_world).
Proof.
  refine (proj1 (proj2 (event_for_unmatched_customer_is_dropped billing_world
            (Stripe.mkInvoice "in_1" "cus_9" 0 900 "usd") _))).
  left. intros uid u Hl. unfold billing_world in Hl. simpl in Hl.
  destruct (decide (uid = "u1")) as [->|H1].
  { rewrite lookup_insert_eq in Hl. by injection Hl as <-. }
  rewrite lookup_insert_ne in Hl by done.
  destruct (decide (uid = "u2")) as [->|H2].
  { rewrite lookup_singleton_eq in Hl. by injection Hl as <-. }
  rewrite lookup_singleton_ne in Hl by done. discriminate.
Defined.

Lemma sole_customer_alter w c uid uid' f users' :
  sole_customer w c uid →
  (∀ u, Stripe.stripe_customer_id (f u) = Stripe.stripe_customer_id u) →
  Stripe.users users' = alter f uid' (Stripe.users w) →
  sole_customer users' c uid.
Proof.
  intros [(u & Hu & Hc) Honly] Hf Heq. unfold sole_customer. rewrite Heq. split.
  - destruct (decide (uid' = uid)) as [->|Hne].
    + exists (f u). by rewrite lookup_alter_eq, Hu, Hf.
    + exists u. by rewrite lookup_alter_ne.
  - intros k v Hl Hv. destruct (decide (uid' = k)) as [->|Hne].
    + rewrite lookup_alter_eq in Hl.
      destruct (Stripe.users w !! k) as [v0|] eqn:Hk; [|done].
      injection Hl as <-. rewrite Hf in Hv. by apply (Honly k v0).
    + rewrite lookup_alter_ne in Hl by done. by apply (Honly k v).
Qed.

(** X27: for a customer that exactly one user has, a failed payment
    followed by a succeeded one leaves the user's [payment_failed] flag
    cleared with no failure time, and the payment log longer by the failed
    and then the succeeded payment; the failed one is logged with the
    amount due, the succeeded one with the amount paid. *)
Theorem payment_success_clears_failure w c uid inv1 inv2 :
  sole_customer w c uid →
  Stripe.customer inv1 = c → Stripe.customer inv2 = c →
  let w' := (Stripe.handlePaymentSuccess inv2
               (Stripe.handlePaymentFailure inv1 w).2).2 in
  (∃ u', Stripe.users w' !! uid = Some u' ∧
         Stripe.payment_failed u' = Some false ∧
         Stripe.payment_failed_at u' = None) ∧
  Stripe.payments w' =
    Stripe.payments w ++
      [Stripe.mkPayment uid (Stripe.invoice_id inv1) (Stripe.amount_due inv1)
         (Stripe.invoice_currency inv1) "failed" None
         (Some (Stripe.clock w (Stripe.reads w)));
       Stripe.mkPayment uid (Stripe.invoice_id inv2) (Stripe.amount_paid inv2)
         (Stripe.invoice_currency inv2) "succeeded"
         (Some (Stripe.clock w (S (S (Stripe.reads w))))) None].
Proof.
  intros Hsole H1 H2 w'.
  pose proof (user_of_customer_sole c w uid Hsole) as Hfound.
  destruct Hsole as [(u & Hu & Hc) Honly].
  assert ((Stripe.handlePaymentFailure inv1 w).2 =
          Stripe.mkBilling
            (alter (fun u => Stripe.mkUser (Stripe.stripe_customer_id u)
                      (Stripe.subscription_status u) (Stripe.subscription_tier u)
                      (Some true) (Some (Stripe.clock w (S (Stripe.reads w)))))
                   uid (Stripe.users w))
            (Stripe.subscriptions w)
            (Stripe.payments w ++
               [Stripe.mkPayment uid (Stripe.invoice_id inv1) (Stripe.amount_due inv1)
                  (Stripe.invoice_currency inv1) "failed" None
                  (Some (Stripe.clock w (Stripe.reads w)))])
            (Stripe.clock w) (S (S (Stripe.reads w)))) as Hw1.
  { run_stripe. by rewrite H1, Hfound. }
  unfold w'. rewrite Hw1. set (w1 := Stripe.mkBilling _ _ _ _ _).
  assert (sole_customer w1 c uid) as Hsole1.
  { eapply (sole_customer_alter w c uid uid); [by split; eauto| |reflexivity]. done. }
  pose proof (user_of_customer_sole c w1 uid Hsole1) as Hfound1.
  run_stripe. rewrite H2, Hfound1. simpl. split.
  - rewrite !lookup_alter_eq, Hu. simpl. by eexists.
  - by rewrite <- app_assoc.
Qed.

Lemma payment_success_clears_failure_witness :
  ∃ u', Stripe.users
          (Stripe.handlePaymentSuccess (Stripe.mkInvoice "in_2" "cus_1" 900 0 "usd")
             (Stripe.handlePaymentFailure
                (Stripe.mkInvoice "in_1" "cus_1" 0 900 "usd") billing_world).2).2
          !! "u1" = Some u' ∧
        Stripe.payment_failed u' = Some false ∧
        Stripe.payment_failed_at u' = None.
Proof.
  refine (proj1 (payment_success_clears_failure billing_world "cus_1" "u1"
            (Stripe.mkInvoice "in_1" "cus_1" 0 900 "usd")
            (Stripe.mkInvoice "in_2" "cus_1" 900 0 "usd") _ eq_refl eq_refl)).
  split.
  - exists (plain_user (Some "cus_1")). split; [vm_compute; reflexivity | reflexivity].
  - intros uid u Hl Hc. unfold billing_world in Hl. simpl in Hl.
    destruct (decide (uid = "u1")) as [->|H1]; [done|].
    rewrite lookup_insert_ne in Hl by done.
    destruct (decide (uid = "u2")) as [->|H2].
    { rewrite lookup_singleton_eq in Hl. injection Hl as <-. done. }
    rewrite lookup_singleton_ne in Hl by done. discriminate.
Defined.

(** X28: once the cancellation of a subscription has been handled for a
    customer that exactly one user has, that user is on the [free] tier
    with status [canceled] and is sent to [/upgrade] on every premium
    path, whatever the subscription row said before. *)
Theorem cancellation_locks_premium_paths w c uid s pathname :
  sole_customer w c uid →
  Middleware.user_id s = uid →
  Middleware.matches Middleware.premiumRoutes pathname = true →
  let w' := (Stripe.handleSubscriptionCancellation c w).2 in
  Middleware.middleware pathname (Some s) (subscription_in w')
    = Middleware.RedirectUpgrade ∧
  ∃ u', Stripe.users w' !! uid = Some u' ∧
        Stripe.subscription_status u' = Some "canceled" ∧
        Stripe.subscription_tier u' = Some "free".
Proof.
  intros Hsole Hs Hpremium w'.
  pose proof (user_of_customer_sole c w uid Hsole) as Hfound.
  destruct Hsole as [(u & Hu & Hc) _].
  assert (w' =
          Stripe.mkBilling
            (alter (fun u => Stripe.mkUser (Stripe.stripe_customer_id u)
                      (Some "canceled") (Some "free")
                      (Stripe.payment_failed u) (Stripe.payment_failed_at u))
                   uid (Stripe.users w))
            (alter (fun r => Stripe.mkSubscriptionRow "canceled" (Stripe.tier r)
                      (Some (Stripe.clock w (Stripe.reads w))))
                   uid (Stripe.subscriptions w))
            (Stripe.payments w) (Stripe.clock w) (S (Stripe.reads w))) as ->.
  { unfold w'. run_stripe. by rewrite Hfound. }
  split.
  - unfold Middleware.middleware. rewrite Hpremium, Hs.
    unfold subscription_in. cbn [Stripe.subscriptions].
    rewrite lookup_alter_eq.
    by destruct (Stripe.subscriptions w !! uid).
  - cbn [Stripe.users]. rewrite lookup_alter_eq, Hu. by eexists.
Qed.

Lemma cancellation_locks_premium_paths_witness :
  Middleware.middleware "/analytics/weekly"
    (Some (Middleware.mkSession "u1" None))
    (subscription_in (Stripe.handleSubscriptionCancellation "cus_1" billing_world).2)
    = Middleware.RedirectUpgrade.
Proof.
  refine (proj1 (cancellation_locks_premium_paths billing_world "cus_1" "u1"
            (Middleware.mkSession "u1" None) "/analytics/weekly" _ eq_refl eq_refl)).
  split.
  - exists (plain_user (Some "cus_1")). split; [vm_compute; reflexivity | reflexivity].
  - intros uid u Hl Hc. unfold billing_world in Hl. simpl in Hl.
    destruct (decide (uid = "u1")) as [->|H1]; [done|].
    rewrite lookup_insert_ne in Hl by done.
    destruct (decide (uid = "u2")) as [->|H2].
    { rewrite lookup_singleton_eq in Hl. injection Hl as <-. done. }
    rewrite lookup_singleton_ne in Hl by done. discriminate.
Defined.

(** X29: a completed checkout links its customer to the user named by the
    client reference. When no user had that customer before, later events
    for the customer find this user; when another user had it already, the
    customer now matches two users and later events find none. *)
Theorem checkout_links_customer_to_user w c uid u :
  Stripe.users w !! uid = Some u →
  uid ≠ "" →
  let w' := (Stripe.handleCheckoutComplete c (Some uid) w).2 in
  ((∀ uid' u', Stripe.users w !! uid' = Some u' →
               Stripe.stripe_customer_id u' ≠ Some c) →
   (Stripe.user_of_customer c w').1 = Some uid) ∧
  (∀ uid' u', uid' ≠ uid → Stripe.users w !! uid' = Some u' →
              Stripe.stripe_customer_id u' = Some c →
              (Stripe.user_of_customer c w').1 = None).
Proof.
  intros Hu Hne w'.
  assert (Stripe.users w' =
          alter (fun u => Stripe.mkUser (Some c) (Stripe.subscription_status u)
                   (Stripe.subscription_tier u) (Stripe.payment_failed u)
                   (Stripe.payment_failed_at u)) uid (Stripe.users w)) as Husers.
  { unfold w', Stripe.handleCheckoutComplete.
    by rewrite bool_decide_eq_false_2. }
  split.
  - intros Hfresh. apply user_of_customer_sole. split.
    + eexists. rewrite Husers, lookup_alter_eq, Hu. by split.
    + intros k v Hl Hv. rewrite Husers in Hl.
      destruct (decide (uid = k)) as [->|Hk]; [done|].
      rewrite lookup_alter_ne in Hl by done. by destruct (Hfresh k v).
  - intros uid' u' Hother Hl' Hc'.
    eapply (user_of_customer_ambiguous c w' uid uid'); [done| | | |exact Hc'].
    + by rewrite Husers, lookup_alter_eq, Hu.
    + done.
    + by rewrite Husers, lookup_alter_ne.
Qed.

Lemma checkout_links_customer_to_user_witness :
  (Stripe.user_of_customer "cus_2"
     (Stripe.handleCheckoutComplete "cus_2" (Some "u2") billing_world).2).1
    = Some "u2".
Proof.
  refine (proj1 (checkout_links_customer_to_user billing_world "cus_2" "u2"
            (plain_user None) _ _) _).
  - vm_compute. reflexivity.
  - done.
  - intros uid u Hl. unfold billing_world in Hl. simpl in Hl.
    destruct (decide (uid = "u1")) as [->|H1].
    { rewrite lookup_insert_eq in Hl. by injection Hl as <-. }
    rewrite lookup_insert_ne in Hl by done.
    destruct (decide (uid = "u2")) as [->|H2].
    { rewrite lookup_singleton_eq in Hl. by injection Hl as <-. }
    rewrite lookup_singleton_ne in Hl by done. discriminate.
Defined.

(** ** The streaks page *)

(** X30: the colour of a rank is determined by its title: two session
    counts with the same title get the same colour, and two counts with the
    same colour have the same title unless both are below 50, where
    Beginner and Newcomer share the grey. *)
Theorem rank_colour_follows_title a b :
  (StreaksPage.getRankTitle a = StreaksPage.getRankTitle b →
   StreaksPage.getRankColor a = StreaksPage.getRankColor b) ∧
  (StreaksPage.getRankColor a = StreaksPage.getRankColor b →
   StreaksPage.getRankTitle a = StreaksPage.getRankTitle b ∨ (a < 50 ∧ b < 50)).
Proof.
  unfold StreaksPage.getRankTitle, StreaksPage.getRankColor.
  split;
    repeat match goal with
           | |- context [?x <=? ?y] => destruct (Z.leb_spec x y)
           end; intros Heq; try done; try (by left); right; lia.
Qed.
